(** * Kratos: detection-and-triage pipeline of the war-room dashboard

    A shallow embedding of the Streamlit scripts of the repository
    (Kratos28_app.py is the reference script; Kratos27, Kratos20, Kratos16
    and the script Kratos 8 are embedded where they differ), followed by the
    properties of the pipeline: column validation, numeric normalisation,
    severity classification, geo lookup, timeline window and playback
    position, and the map layers.

    Conventions of the embedding:
    - a DataFrame is a list of column names and a list of rows; a raw row is
      a dictionary from column names to cells ([gmap string cell]);
    - an int64 cell is a [Z] within the int64 range; a float64 value is NaN,
      an infinity or a rational; the conversion of an int64 to float64 rounds
      to 53 bits, and [astype(int)] of a float64 column raises on an infinity
      and gives the least int64 for a finite value beyond the int64 range;
    - a pandas Timestamp is a [Z], nanoseconds since the epoch; NaT is [None];
    - what the scripts obtain from libraries and the outside world (the
      text parsers of pandas, [float], IsolationForest, the HTTP service,
      the slider widget of Streamlit) is a [Variable] of the section that
      uses it. *)

From Stdlib Require Import ZArith QArith Ascii String.
From stdpp Require Import gmap strings list sorting pretty.

Local Open Scope Z_scope.
Local Open Scope string_scope.

(** ** Cells and frames *)

(** A float64 value: NaN (also pandas' marker of a missing value), plus or
    minus infinity, or a finite number. *)
Inductive pyfloat :=
| FNaN
| FInf (negative : bool)
| FVal (q : Q).

(** What a cell of an uploaded CSV/JSON column can hold. *)
Inductive cell :=
| CInt (z : Z)
| CFloat (x : pyfloat)
| CStr (s : string).

Definition NaN : cell := CFloat FNaN.

Record DataFrame := mkFrame {
  columns : list string;
  records : list (gmap string cell)
}.

(** [row[c]], a missing entry of a record reads as NaN (as [pd.read_json]
    fills it). *)
Definition at_col (r : gmap string cell) (c : string) : cell :=
  default NaN (r !! c).

(** [logs[c]], the cells of a column in the order of the records. *)
Definition column (logs : DataFrame) (c : string) : list cell :=
  (fun r => at_col r c) <$> records logs.

(** The script either goes on with a value, or halts the run with
    [st.error(msg); st.stop()], or ends on an exception that it does not
    catch. [st.rerun()] ends the run with RerunException, on which Streamlit
    starts the script again. *)
Inductive exn :=
| AttributeError
| TypeError
| ValueError
| KeyError
| RequestException
| JSONDecodeError
| StreamlitAPIException
| RerunException.

Inductive script (A : Type) :=
| Go (a : A)
| Stopped (msg : string)
| Crashed (e : exn).
Arguments Go {A} a.
Arguments Stopped {A} msg.
Arguments Crashed {A} e.

Definition script_bind {A B} (m : script A) (k : A -> script B) : script B :=
  match m with
  | Go a => k a
  | Stopped msg => Stopped msg
  | Crashed e => Crashed e
  end.

Notation "'do' x <- m ; k" := (script_bind m (fun x => k))
  (at level 10, x name, m at level 100, k at level 200).

(** A loop over the rows, one script step for each. *)
Fixpoint for_each {A B} (f : A -> script B) (l : list A) : script (list B) :=
  match l with
  | [] => Go []
  | x :: rest =>
      do y <- f x;
      do ys <- for_each f rest;
      Go (y :: ys)
  end.

(** ** Record validator (Kratos28_app.py, lines 79-83) *)

Definition required_cols : gset string :=
  {[ "timestamp"; "source_ip"; "dest_ip"; "bytes_sent"; "failed_logins" ]}.

Definition schema_message : string :=
  "Log file must have columns: timestamp, source_ip, dest_ip, bytes_sent, failed_logins".

(** [if not required_cols.issubset(set(logs.columns)): st.error(..); st.stop()] *)
Definition ensure_required_columns (logs : DataFrame) : script DataFrame :=
  if decide (required_cols ⊆ (list_to_set (columns logs) : gset string))
  then Go logs
  else Stopped schema_message.

(** ** Rows of the typed frame

    [N] is the type of the two numeric columns: [cell] while they are still
    raw, [Z] after [astype(int)]. The columns other than the five required
    ones travel in [extra]. *)
Record Row (N : Type) := mkRow {
  timestamp : option Z;
  source_ip : cell;
  dest_ip : cell;
  bytes_sent : N;
  failed_logins : N;
  extra : gmap string cell
}.
Arguments mkRow {N} _ _ _ _ _ _.
Arguments timestamp {N} _.
Arguments source_ip {N} _.
Arguments dest_ip {N} _.
Arguments bytes_sent {N} _.
Arguments failed_logins {N} _.
Arguments extra {N} _.

(** ** Feature normaliser (Kratos28_app.py, lines 85-94) *)

Definition timestamps_message : string := "Could not parse timestamps.".

(** What [pd.to_numeric] reads in one cell: an integer or a float. *)
Inductive number :=
| Int64 (z : Z)
| Float64 (x : pyfloat).

Definition INT64_MIN : Z := - 2 ^ 63.
Definition INT64_MAX : Z := 2 ^ 63 - 1.

(** The multiple of [unit] nearest to [a >= 0], a tie going to the even
    multiple. *)
Definition round_half_even (a unit : Z) : Z :=
  let q := a `div` unit in
  let r := a `mod` unit in
  if (2 * r <? unit)%Z then q * unit
  else if (unit <? 2 * r)%Z then (q + 1) * unit
  else if Z.even q then q * unit
  else (q + 1) * unit.

(** The float64 nearest to an integer: an integer of at most 53 bits is
    kept, a longer one is rounded to 53 bits. *)
Definition float64_of_int (z : Z) : Z :=
  let bits := Z.log2 (Z.abs z) + 1 in
  if (bits <=? 53)%Z then z
  else Z.sgn z * round_half_even (Z.abs z) (2 ^ (bits - 53)).

(** [astype(int)] on a finite float: truncation toward zero; a value beyond
    the int64 range comes out as the least int64 (x86-64). *)
Definition astype_int (q : Q) : Z :=
  let t := Z.quot (Qnum q) (Z.pos (Qden q)) in
  if bool_decide (INT64_MIN <= t <= INT64_MAX) then t else INT64_MIN.

(** [astype(int)] on one value of a float64 column: pandas raises
    IntCastingNaNError, a ValueError, on a value that is not finite. *)
Definition astype_int_checked (x : pyfloat) : script Z :=
  match x with
  | FVal q => Go (astype_int q)
  | _ => Crashed ValueError
  end.

(** [.fillna(v)] on one value. *)
Definition fillna (v : Q) (x : pyfloat) : pyfloat :=
  match x with
  | FNaN => FVal v
  | _ => x
  end.

(** The value of a reading in an int64 column, and in a float64 column. *)
Definition as_int (n : number) : option Z :=
  match n with
  | Int64 z => Some z
  | Float64 _ => None
  end.

Definition as_float (n : number) : pyfloat :=
  match n with
  | Int64 z => FVal (inject_Z (float64_of_int z))
  | Float64 x => x
  end.

(** Order used by [sort_values("timestamp")]: ascending, NaT last. *)
Definition ts_le {N} (r1 r2 : Row N) : Prop :=
  match timestamp r1, timestamp r2 with
  | Some t1, Some t2 => t1 <= t2
  | _, None => True
  | None, Some _ => False
  end.

#[global] Instance ts_le_dec {N} (r1 r2 : Row N) : Decision (ts_le r1 r2).
Proof.
  unfold ts_le. destruct (timestamp r1), (timestamp r2); apply _.
Defined.

Section Normalizer.
(** pandas' reading of a text cell as a number; [None]: not a number. *)
Variable parse_number : string -> option number.
(** [pd.to_datetime] on one cell; [None]: NaT. *)
Variable to_datetime : cell -> option Z.

(** [pd.to_numeric(.., errors="coerce")], the reading of one cell: a text
    that is no number reads as NaN. *)
Definition to_numeric (c : cell) : number :=
  match c with
  | CInt z => Int64 z
  | CFloat x => Float64 x
  | CStr s => default (Float64 FNaN) (parse_number s)
  end.

(** [pd.to_numeric(col, errors="coerce").fillna(0).astype(int)] on a
    column. When every cell reads as an integer the column is an int64
    column, which [fillna] and [astype] leave as it is; one other cell makes
    it a float64 column, every value of which goes through float64. *)
Definition coerce_column (col : list cell) : script (list Z) :=
  let readings := to_numeric <$> col in
  match mapM as_int readings with
  | Some ints => Go ints
  | None => for_each astype_int_checked (fillna 0%Q <$> (as_float <$> readings))
  end.

(** [logs["timestamp"] = pd.to_datetime(logs["timestamp"], errors="coerce")],
    reading the five required columns of each record. *)
Definition parse_timestamps (logs : DataFrame) : list (Row cell) :=
  (fun r =>
     mkRow (to_datetime (at_col r "timestamp"))
           (at_col r "source_ip") (at_col r "dest_ip")
           (at_col r "bytes_sent") (at_col r "failed_logins")
           (filter (fun kv => kv.1 ∉ required_cols) r))
  <$> records logs.

(** [logs["timestamp"].isna().all()] *)
Definition all_nat {N} (logs : list (Row N)) : bool :=
  forallb (fun r => bool_decide (timestamp r = None)) logs.

(** [logs.sort_values("timestamp").reset_index(drop=True)]. The order in
    which rows of one and the same timestamp come out is that of pandas'
    sort, which is not modelled: what is used of the result is that it is
    sorted and holds the same rows. *)
Definition sort_values {N} (logs : list (Row N)) : list (Row N) :=
  merge_sort ts_le logs.

(** Lines 93-94 put the two coerced columns back in the frame. *)
Definition set_numbers (logs : list (Row cell)) (bytes logins : list Z) : list (Row Z) :=
  zip_with (fun r (n : Z * Z) =>
              mkRow (timestamp r) (source_ip r) (dest_ip r) n.1 n.2 (extra r))
           logs (zip bytes logins).

(** Lines 85-94 as one step of the script. *)
Definition normalize (logs : DataFrame) : script (list (Row Z)) :=
  let rows := parse_timestamps logs in
  if all_nat rows then Stopped timestamps_message
  else
    let rows := sort_values rows in
    do bytes <- coerce_column (bytes_sent <$> rows);
    do logins <- coerce_column (failed_logins <$> rows);
    Go (set_numbers rows bytes logins).

(** *** What the coercion makes of a cell, in words

    A cell reads as an integer of the int64 range, as a float, or as
    nothing (a missing value, a text that is no number). *)
Definition reads_integer (c : cell) (z : Z) : Prop :=
  (c = CInt z ∨ ∃ s, c = CStr s ∧ parse_number s = Some (Int64 z)) ∧
  INT64_MIN <= z <= INT64_MAX.

Definition reads_float (c : cell) (x : pyfloat) : Prop :=
  c = CFloat x ∨ ∃ s, c = CStr s ∧ parse_number s = Some (Float64 x).

Definition reads_nothing (c : cell) : Prop :=
  reads_float c FNaN ∨ ∃ s, c = CStr s ∧ parse_number s = None.

(** Every cell of the column reads as an integer. *)
Definition integer_column (col : list cell) : Prop :=
  Forall (fun c => ∃ z, reads_integer c z) col.

(** Some cell of the column reads as plus or minus infinity. *)
Definition holds_infinity (col : list cell) : Prop :=
  ∃ c negative, c ∈ col ∧ reads_float c (FInf negative).

(** [v] is [q] truncated toward zero. *)
Definition truncated (q : Q) (v : Z) : Prop :=
  ((0 <= q)%Q → (inject_Z v <= q)%Q ∧ (q < inject_Z v + 1)%Q) ∧
  ((q <= 0)%Q → (inject_Z v - 1 < q)%Q ∧ (q <= inject_Z v)%Q).

(** What lines 93-94 make of the cell [c] of the column [col], giving [v]:
    zero for what reads as nothing; an integer is kept as it is when the
    whole column is of integers, and in any column while its magnitude is at
    most 2^53; a finite float within the int64 range is truncated toward
    zero. No negative value is replaced by zero. *)
Definition coerced (col : list cell) (c : cell) (v : Z) : Prop :=
  (reads_nothing c → v = 0) ∧
  (∀ z, reads_integer c z → integer_column col → v = z) ∧
  (∀ z, reads_integer c z → Z.abs z <= 2 ^ 53 → v = z) ∧
  (∀ q, reads_float c (FVal q) →
        (inject_Z INT64_MIN <= q)%Q → (q <= inject_Z INT64_MAX)%Q →
        truncated q v).
End Normalizer.

(** ** Anomaly scorer and alerts (Kratos28_app.py, lines 99-101) *)

Record ScoredRow := mkScored {
  event :> Row Z;
  score : Z
}.

Section Scorer.
(** [IsolationForest(contamination=0.05, random_state=42).fit_predict]
    on the feature matrix: one label per row, -1 for an outlier and 1 for
    an inlier. *)
Variable fit_predict : list (Z * Z) -> list Z.

Definition features (logs : list (Row Z)) : list (Z * Z) :=
  (fun r => (bytes_sent r, failed_logins r)) <$> logs.

(** [logs["score"] = model.fit_predict(logs[["bytes_sent","failed_logins"]])] *)
Definition add_scores (logs : list (Row Z)) : list ScoredRow :=
  zip_with mkScored logs (fit_predict (features logs)).
End Scorer.

(** [alerts = logs[logs["score"] == -1].copy()] *)
Definition outliers (logs : list ScoredRow) : list ScoredRow :=
  filter (fun r => score r = -1) logs.

(** ** Severity classifier (Kratos28_app.py, lines 104-112) *)

Inductive Severity := Low | Medium | High.

#[global] Instance Severity_eq_dec : EqDecision Severity.
Proof. solve_decision. Defined.

Definition classify_severity (r : Row Z) : Severity :=
  if (failed_logins r >? 20) && (bytes_sent r >? 5000) then High
  else if (failed_logins r >? 5) || (bytes_sent r >? 3000) then Medium
  else Low.

(** The order Low < Medium < High on the tiers. *)
Definition severity_rank (s : Severity) : Z :=
  match s with
  | Low => 0
  | Medium => 1
  | High => 2
  end.

Definition severity_le (s1 s2 : Severity) : Prop :=
  severity_rank s1 <= severity_rank s2.

(** ** Geo enricher *)

(** A coordinate pair; [(0, 0)] is the "unlocated" sentinel. *)
Definition coords : Type := pyfloat * pyfloat.
Definition unlocated : coords := (FVal 0%Q, FVal 0%Q).

(** A decoded JSON document, what [resp.json()] returns. An object is the
    list of its (distinct) keys with their values. *)
#[warnings="-register-all"]
Inductive json :=
| JNull
| JBool (b : bool)
| JNum (q : Q)
| JStr (s : string)
| JArr (items : list json)
| JObj (fields : list (string * json)).

(** What [requests.get(url, timeout=5)] comes back with: an exception
    (timeout, connection error, ...) or a response, whose body decodes as
    JSON ([Some]) or does not ([None]). *)
Inductive reply :=
| NoReply (e : exn)
| Body (data : option json).

(** A computation that can raise and that records the URLs it requested. *)
Definition attempt (A : Type) : Type := (exn + A) * list string.

Definition pure {A} (a : A) : attempt A := (inr a, []).
Definition raise {A} (e : exn) : attempt A := (inl e, []).

Definition and_then {A B} (m : attempt A) (k : A -> attempt B) : attempt B :=
  match m.1 with
  | inl e => (inl e, m.2)
  | inr a => ((k a).1, (m.2 ++ (k a).2)%list)
  end.

(** [try: m except: handler] *)
Definition try_except {A} (m : attempt A) (handler : exn -> attempt A) : attempt A :=
  match m.1 with
  | inl e => ((handler e).1, (m.2 ++ (handler e).2)%list)
  | inr a => m
  end.

Notation "'let!' x := m 'in' k" := (and_then m (fun x => k))
  (at level 10, x name, m at level 100, k at level 200).

(** [s.split(sep)] for a one-character separator. *)
Fixpoint split_on (sep : Ascii.ascii) (s : string) : list string :=
  match s with
  | EmptyString => [EmptyString]
  | String c rest =>
      if Ascii.eqb c sep then EmptyString :: split_on sep rest
      else match split_on sep rest with
           | [] => [String c EmptyString]
           | w :: ws => String c w :: ws
           end
  end.

(** [ip.startswith(prefixes)]: only a [str] has the method. *)
Definition startswith (ip : cell) (prefixes : list string) : attempt bool :=
  match ip with
  | CStr s => pure (existsb (fun p => String.prefix p s) prefixes)
  | _ => raise AttributeError
  end.

(** [key in data] *)
Definition json_contains (key : string) (data : json) : attempt bool :=
  match data with
  | JObj fields => pure (existsb (fun kv => String.eqb kv.1 key) fields)
  | JArr items =>
      pure (existsb (fun v => match v with
                              | JStr s => String.eqb s key
                              | _ => false
                              end) items)
  | JStr s => pure (bool_decide (is_Some (String.index 0 key s)))
  | _ => raise TypeError
  end.

(** [data[key]] for a text key. *)
Definition json_getitem (data : json) (key : string) : attempt json :=
  match data with
  | JObj fields =>
      match list_find (fun kv => kv.1 = key) fields with
      | Some (_, kv) => pure kv.2
      | None => raise KeyError
      end
  | _ => raise TypeError
  end.

(** [v.split(",")]: only a [str] has the method. *)
Definition json_split (v : json) : attempt (list string) :=
  match v with
  | JStr s => pure (split_on ","%char s)
  | _ => raise AttributeError
  end.

Definition private_prefixes : list string := ["10."; "192.168."; "172.16."].

(** [f"https://ipinfo.io/{ip}?token={IPINFO_TOKEN}"] *)
Definition ipinfo_url (token ip : string) : string :=
  "https://ipinfo.io/" +:+ ip +:+ "?token=" +:+ token.

Section GeoLookup.
(** The ipinfo.io service, as seen through [requests.get]. *)
Variable requests_get : string -> reply.
(** Python's [float] on text; [None]: it raises ValueError. *)
Variable py_float : string -> option pyfloat.

(** [requests.get(url, timeout=5)]: the request is recorded. *)
Definition http_get (url : string) : attempt (option json) :=
  match requests_get url with
  | NoReply e => (inl e, [url])
  | Body data => (inr data, [url])
  end.

(** [resp.json()] *)
Definition resp_json (body : option json) : attempt json :=
  match body with
  | Some data => pure data
  | None => raise JSONDecodeError
  end.

(** [lat, lon = map(float, parts)] *)
Definition unpack_floats (parts : list string) : attempt coords :=
  match parts with
  | [a; b] =>
      match py_float a, py_float b with
      | Some x, Some y => pure (x, y)
      | _, _ => raise ValueError
      end
  | _ => raise ValueError
  end.

(** The live lookup shared by Kratos27 and Kratos28: from [url = ...] to
    the end of the [try] block. *)
Definition live_lookup (token ip : string) : attempt coords :=
  let url := ipinfo_url token ip in
  let! resp := http_get url in
  let! data := resp_json resp in
  let! has_loc := json_contains "loc" data in
  if has_loc : bool then
    let! loc := json_getitem data "loc" in
    let! parts := json_split loc in
    unpack_floats parts
  else pure unlocated.

(** The text of an identifier that passed [startswith]. *)
Definition ip_text (ip : cell) : string :=
  match ip with
  | CStr s => s
  | _ => ""
  end.
End GeoLookup.

(** *** Kratos27_app.py, lines 118-153 *)
Module Kratos27.
Definition IPINFO_TOKEN : string := "fe4a295a30fcdc".

Definition STATIC_IP_MAP : gmap string (Q * Q) :=
  list_to_map
    [ ("8.8.8.8", (37.3861, -122.0839)%Q);
      ("1.1.1.1", (-33.8688, 151.2093)%Q);
      ("77.88.55.77", (55.7512, 37.6184)%Q);
      ("185.199.110.153", (52.5200, 13.4050)%Q);
      ("41.90.5.2", (-1.2921, 36.8219)%Q);
      ("200.89.75.5", (-34.6037, -58.3816)%Q);
      ("103.21.244.0", (28.6139, 77.2090)%Q);
      ("196.25.1.200", (-26.2041, 28.0473)%Q) ].

(** The body of the [try] block. *)
Definition lookup
    (requests_get : string -> reply) (py_float : string -> option pyfloat)
    (ip : cell) : attempt coords :=
  let! is_private := startswith ip private_prefixes in
  if is_private : bool then pure unlocated
  else
    match STATIC_IP_MAP !! ip_text ip with
    | Some (la, lo) => pure (FVal la, FVal lo)
    | None => live_lookup requests_get py_float IPINFO_TOKEN (ip_text ip)
    end.

Definition real_geolocate
    (requests_get : string -> reply) (py_float : string -> option pyfloat)
    (ip : cell) : attempt coords :=
  try_except (lookup requests_get py_float ip) (fun _ => pure unlocated).
End Kratos27.

(** *** Kratos28_app.py, lines 118-133: no static table *)
Module Kratos28Geo.
Definition IPINFO_TOKEN : string := "YOUR_IPINFO_TOKEN_HERE".

(** The body of the [try] block. *)
Definition lookup
    (requests_get : string -> reply) (py_float : string -> option pyfloat)
    (ip : cell) : attempt coords :=
  let! is_private := startswith ip private_prefixes in
  if is_private : bool then pure unlocated
  else live_lookup requests_get py_float IPINFO_TOKEN (ip_text ip).

Definition real_geolocate
    (requests_get : string -> reply) (py_float : string -> option pyfloat)
    (ip : cell) : attempt coords :=
  try_except (lookup requests_get py_float ip) (fun _ => pure unlocated).
End Kratos28Geo.

(** *** Kratos20_app.py, lines 110-119: the demo table alone *)
Module Kratos20Geo.
Definition geo_map_demo : gmap string (Q * Q) :=
  list_to_map
    [ ("10.0.0.1", (38.0, -97.0)%Q);
      ("192.168.1.5", (51.5, -0.1)%Q);
      ("203.0.113.9", (35.7, 139.7)%Q);
      ("198.51.100.77", (55.7, 37.6)%Q);
      ("8.8.8.8", (37.386, -122.0838)%Q) ].

(** [geo_map_demo.get(ip, (0,0))]; a key that is not text is not in the
    table. *)
Definition simple_geolocate (ip : cell) : coords :=
  match ip with
  | CStr s =>
      match geo_map_demo !! s with
      | Some (la, lo) => (FVal la, FVal lo)
      | None => unlocated
      end
  | _ => unlocated
  end.
End Kratos20Geo.

(** ** Alerts (Kratos28_app.py, lines 101-135) *)

Record Alert := mkAlert {
  alert_row :> ScoredRow;
  severity : Severity;
  lat : pyfloat;
  lon : pyfloat
}.

(** [alerts.apply(classify_severity, axis=1)]: the severity column. *)
Definition severity_column (alerts : list ScoredRow) : list Severity :=
  (fun r : ScoredRow => classify_severity r) <$> alerts.

(** [severity_colors.get(sev, "blue")] *)
Definition severity_color (s : Severity) : string :=
  match s with
  | Low => "green"
  | Medium => "orange"
  | High => "red"
  end.

(** ** Timeline window (Kratos28_app.py, lines 170-182) *)

(** One hour and one minute, in nanoseconds. *)
Definition HOUR : Z := 3600000000000.
Definition MINUTE : Z := 60000000000.

(** [Timestamp.floor("H")] and [Timestamp.ceil("H")] *)
Definition floor_H (t : Z) : Z := t `div` HOUR * HOUR.
Definition ceil_H (t : Z) : Z := - ((- t) `div` HOUR) * HOUR.

(** [logs["timestamp"].min()] and [.max()]: NaT is skipped; [None] when no
    row has a timestamp. *)
Definition ts_min {N} (logs : list (Row N)) : option Z :=
  match omap timestamp logs with
  | [] => None
  | t :: ts => Some (foldr Z.min t ts)
  end.

Definition ts_max {N} (logs : list (Row N)) : option Z :=
  match omap timestamp logs with
  | [] => None
  | t :: ts => Some (foldr Z.max t ts)
  end.

(** [int((t_max - t_min).total_seconds() // 3600)] *)
Definition total_hours (t_min t_max : Z) : Z := (t_max - t_min) `div` HOUR.

(** [t_min + timedelta(hours=int(hour_pos))] *)
Definition current_start (t_min hour_pos : Z) : Z := t_min + hour_pos * HOUR.

(** [current_start + timedelta(hours=1)] *)
Definition current_end (t_min hour_pos : Z) : Z :=
  current_start t_min hour_pos + 1 * HOUR.

(** [(ts >= current_start) & (ts < current_end)]; a comparison with NaT is
    False. *)
Definition in_window (w_start w_end : Z) (ts : option Z) : Prop :=
  match ts with
  | Some t => w_start <= t ∧ t < w_end
  | None => False
  end.

#[global] Instance in_window_dec w_start w_end ts :
  Decision (in_window w_start w_end ts).
Proof. destruct ts; simpl; apply _. Defined.

(** [visible_alerts = alerts[(alerts["timestamp"] >= current_start)
                            & (alerts["timestamp"] < current_end)].copy()] *)
Definition visible_alerts (t_min hour_pos : Z) (alerts : list Alert) : list Alert :=
  filter (fun a : Alert =>
            in_window (current_start t_min hour_pos) (current_end t_min hour_pos)
                      (timestamp a))
         alerts.

(** ** The widgets of Streamlit that the playback code calls

    [st.slider(label, lo, hi, value)] is Streamlit's: it is the [Variable]
    [st_slider lo hi value drag] of the sections below, [drag] being what
    the user did with the handle since the last run; the call returns a
    position or raises. *)

(** [st.rerun()] ends the run at once; Streamlit then starts the script
    again, with the same widget values. *)
Definition st_rerun : script unit := Crashed RerunException.

(** [st.experimental_autorefresh(interval=.., key=..)]: the module
    [streamlit] has no attribute of that name, the call raises. *)
Definition st_experimental_autorefresh : script unit := Crashed AttributeError.

(** The position that a sequence of runs leaves in the session state: each
    run starts with the position the previous one left, however that one
    ended. *)
Definition session {C} (run : C -> Z -> script unit * Z) (runs : list C) (pos : Z) : Z :=
  foldl (fun pos ui => (run ui pos).2) pos runs.

(** ** Playback position, hour by hour (Kratos27_app.py, lines 56-59 and
       170-178; Kratos20_app.py, lines 46-49 and 137-161)

    A run takes the position kept in [st.session_state.hour_pos]; it gives
    the way it ended and the position it left there. *)
Module HourPlayback.
(** What the user has set for one run of the script. *)
Record controls := mkControls {
  playback_auto : bool;
  drag : option Z;
  reset_clicked : bool
}.

Section Widget.
Variable st_slider : Z -> Z -> Z -> option Z -> script Z.

(** Kratos27, lines 173-178 (Kratos20, lines 141-152): auto-advance, then
    the slider. *)
Definition timeline (total_hours : Z) (ui : controls) (hour_pos : Z) : script unit * Z :=
  let hour_pos :=
    if playback_auto ui && bool_decide (hour_pos < total_hours)
    then hour_pos + 1 else hour_pos in
  match st_slider 0 (Z.max total_hours 0) hour_pos (drag ui) with
  | Go hour_slider =>
      (Go tt, if bool_decide (hour_slider ≠ hour_pos) then hour_slider else hour_pos)
  | Stopped msg => (Stopped msg, hour_pos)
  | Crashed e => (Crashed e, hour_pos)
  end.

(** Kratos27: [if playback_auto: st.rerun()] (lines 58-59) comes before
    everything else. *)
Definition kratos27 (total_hours : Z) (ui : controls) (hour_pos : Z) : script unit * Z :=
  if playback_auto ui then (st_rerun, hour_pos)
  else timeline total_hours ui hour_pos.

(** Kratos20: [if playback_auto: st.experimental_autorefresh(..)] (lines
    48-49) comes before everything else; the timeline is followed by
    [if st.sidebar.button("Reset timeline"): st.session_state.hour_pos = 0]. *)
Definition kratos20 (total_hours : Z) (ui : controls) (hour_pos : Z) : script unit * Z :=
  if playback_auto ui then (st_experimental_autorefresh, hour_pos)
  else
    match timeline total_hours ui hour_pos with
    | (Go _, hour_pos) => (Go tt, if reset_clicked ui then 0 else hour_pos)
    | ended => ended
    end.
End Widget.

Definition advance : controls := mkControls true None false.
Definition scrub (to_position : Z) : controls := mkControls false (Some to_position) false.
Definition reset : controls := mkControls false None true.
End HourPlayback.

(** ** Playback position, minute ticks (Kratos16_app.py, lines 103-129 and
       180-223) *)
Module MinutePlayback.
(** [st.sidebar.selectbox("Playback speed (minutes / tick)",
                          options=[1, 5, 15, 30], index=1)] *)
Inductive speed := Speed1 | Speed5 | Speed15 | Speed30.

Definition minutes_per_tick (s : speed) : Z :=
  match s with
  | Speed1 => 1
  | Speed5 => 5
  | Speed15 => 15
  | Speed30 => 30
  end.

(** What the user has set for one run; [use_local_path]: nothing is
    uploaded and the file data/your_logs.csv exists (lines 103-107). *)
Record controls := mkControls {
  play : bool;
  play_step_min : speed;
  use_local_path : bool;
  drag : option Z;
  reset_clicked : bool
}.

(** Lines 189-191. *)
Definition total_minutes (t_min t_max : Z) : Z :=
  let total := (t_max - t_min) `div` MINUTE + 1 in
  if bool_decide (total < 1) then 1 else total.

Section Widget.
Variable st_slider : Z -> Z -> Z -> option Z -> script Z.
(** [st.experimental_rerun()], which older releases of Streamlit have
    (RerunException) and newer ones do not (AttributeError). *)
Variable st_experimental_rerun : script unit.

(** Lines 126-129, then lines 198-218. *)
Definition kratos16 (total_minutes : Z) (ui : controls) (play_pos : Z) : script unit * Z :=
  if play ui || use_local_path ui then (st_experimental_autorefresh, play_pos)
  else
    let play_pos :=
      if play ui
      then Z.min (play_pos + minutes_per_tick (play_step_min ui)) total_minutes
      else play_pos in
    match st_slider 0 total_minutes play_pos (drag ui) with
    | Go slider_pos =>
        let play_pos :=
          if bool_decide (slider_pos ≠ play_pos) then slider_pos else play_pos in
        if reset_clicked ui then (st_experimental_rerun, 0) else (Go tt, play_pos)
    | Stopped msg => (Stopped msg, play_pos)
    | Crashed e => (Crashed e, play_pos)
    end.
End Widget.

Definition advance (step : speed) : controls := mkControls true step false None false.
Definition scrub (to_position : Z) : controls :=
  mkControls false Speed5 false (Some to_position) false.
Definition reset : controls := mkControls false Speed5 false None true.

(** Line 212: [t_min + pd.Timedelta(minutes=int(play_pos))] *)
Definition current_cutoff (t_min play_pos : Z) : Z := t_min + play_pos * MINUTE.

Definition up_to (cutoff : Z) (ts : option Z) : Prop :=
  match ts with
  | Some t => t <= cutoff
  | None => False
  end.

#[global] Instance up_to_dec cutoff ts : Decision (up_to cutoff ts).
Proof. destruct ts; simpl; apply _. Defined.

(** Line 223: [alerts[alerts["timestamp"] <= current_cutoff].copy()] *)
Definition filtered_alerts (cutoff : Z) (alerts : list Alert) : list Alert :=
  filter (fun a : Alert => up_to cutoff (timestamp a)) alerts.
End MinutePlayback.

(** ** Map layers *)

(** [x != 0] on a float: NaN differs from every number. *)
Definition ne0 (x : pyfloat) : bool :=
  match x with
  | FNaN => true
  | FInf _ => true
  | FVal q => negb (Qeq_bool q 0)
  end.

Definition isna (x : pyfloat) : bool :=
  match x with
  | FNaN => true
  | _ => false
  end.

(** Both coordinates differ from zero. *)
Definition located (p : coords) : Prop := ne0 p.1 = true ∧ ne0 p.2 = true.

Record CircleMarker := mkMarker {
  location : coords;
  color : string
}.

Definition location_of (a : Alert) : coords := (lat a, lon a).

(** The marker loop of Kratos28 (lines 209-219) and Kratos27 (212-222):
    [if r["lat"] != 0 and r["lon"] != 0: folium.CircleMarker(...).add_to(m)];
    these are the markers that the loop asks folium for. *)
Definition markers (visible : list Alert) : list CircleMarker :=
  (fun a => mkMarker (location_of a) (severity_color (severity a)))
  <$> filter (fun a => ne0 (lat a) && ne0 (lon a) = true) visible.

(** [folium.CircleMarker(location=[lat, lon], ..)] raises ValueError when a
    coordinate is NaN, which the test of the loop lets through. *)
Definition circle_marker (m : CircleMarker) : script CircleMarker :=
  if isna (location m).1 || isna (location m).2 then Crashed ValueError
  else Go m.

(** The loop as it runs. *)
Definition draw_markers (visible : list Alert) : script (list CircleMarker) :=
  for_each circle_marker (markers visible).

(** [df[["lat","lon"]].dropna().values.tolist()] *)
Definition dropna (points : list coords) : list coords :=
  filter (fun p : coords => isna p.1 || isna p.2 = false) points.

(** Kratos28, lines 220-223: the points given to [HeatMap]; when the list
    is empty no heat layer is added. *)
Module Kratos28Map.
Definition heat_points (visible : list Alert) : list coords :=
  dropna (location_of <$> visible).
End Kratos28Map.

(** Kratos27, lines 224-227 ("Heatmap (only valid coords)"). *)
Module Kratos27Map.
Definition heat_points (visible : list Alert) : list coords :=
  location_of <$> filter (fun a => ne0 (lat a) && ne0 (lon a) = true) visible.
End Kratos27Map.

(** ** The script Kratos28_app.py, from the loaded frame to the map *)

(** A step that can raise, used as a statement of the script: an exception
    that is not caught ends the run. *)
Definition uncaught {A} (m : attempt A) : script A :=
  match m.1 with
  | inl e => Crashed e
  | inr a => Go a
  end.

Module Kratos28.
(** What one run hands to the tabs. *)
Record view := mkView {
  logs : list ScoredRow;
  alerts : list Alert;
  hour_pos : Z;
  visible : list Alert;
  marker_layer : list CircleMarker;
  heat_layer : list coords
}.

Section Script.
Variable parse_number : string -> option number.
Variable to_datetime : cell -> option Z.
Variable fit_predict : list (Z * Z) -> list Z.
Variable requests_get : string -> reply.
Variable py_float : string -> option pyfloat.
Variable st_slider : Z -> Z -> Z -> option Z -> script Z.

(** Lines 112 and 135. With no alert at all, the [zip] of line 135 yields nothing
    to unpack into the two columns and the assignment raises. *)
Definition enrich (alerts : list ScoredRow) : script (list Alert) :=
  match alerts with
  | [] => Crashed ValueError
  | _ =>
      for_each
        (fun r : ScoredRow =>
           do c <- uncaught (Kratos28Geo.real_geolocate requests_get py_float
                               (source_ip r));
           Go (mkAlert r (classify_severity r) c.1 c.2))
        alerts
  end.

(** [t.floor("H")] of the earliest and [t.ceil("H")] of the latest
    timestamp; without any timestamp [int(nan)] raises. *)
Definition time_range (logs : list ScoredRow) : script (Z * Z) :=
  match ts_min (event <$> logs), ts_max (event <$> logs) with
  | Some lo, Some hi => Go (floor_H lo, ceil_H hi)
  | _, _ => Crashed ValueError
  end.

(** Lines 79-223, with the auto-play box unchecked; [hour_pos] is the
    position kept in the session state, [drag] what the user did with
    the slider. *)
Definition run (frame : DataFrame) (hour_pos : Z) (drag : option Z) : script view :=
  do frame <- ensure_required_columns frame;
  do rows <- normalize parse_number to_datetime frame;
  let logs := add_scores fit_predict rows in
  do alerts <- enrich (outliers logs);
  do range <- time_range logs;
  let t_min := range.1 in
  let t_max := range.2 in
  do hour_slider <- st_slider 0 (Z.max (total_hours t_min t_max) 0) hour_pos drag;
  let hour_pos := hour_slider in
  let visible := visible_alerts t_min hour_pos alerts in
  do marker_layer <- draw_markers visible;
  Go (mkView logs alerts hour_pos visible
             marker_layer (Kratos28Map.heat_points visible)).
End Script.
End Kratos28.

(** ** The severity rule of the script "Kratos 8" (lines 500-506 of the
       unnamed part): an earlier rule, with other thresholds and labels *)
Module Kratos8.
Inductive label := LOW | MEDIUM | HIGH.

Definition classify (r : Row Z) : label :=
  if (failed_logins r >? 20) || (bytes_sent r >? 7000) then HIGH
  else if (failed_logins r >? 5) || (bytes_sent r >? 3000) then MEDIUM
  else LOW.
End Kratos8.

(** ** Dashboard tab: the severity filter (Kratos28_app.py, lines 189-193) *)

(** [st.selectbox("Filter severity:", ["All","Low","Medium","High"])] *)
Inductive severity_choice :=
| AllSeverities
| Only (s : Severity).

(** [df_view]: the visible alerts, or those of the chosen severity. *)
Definition df_view (severity_filter : severity_choice) (visible : list Alert) : list Alert :=
  match severity_filter with
  | AllSeverities => visible
  | Only s => filter (fun a : Alert => severity a = s) visible
  end.

(** ** Threat news (Kratos28_app.py, lines 140-153 and 250-262) *)
Module Kratos28News.
Definition NEWSAPI_KEY : string := "5eb57893abfb4d54b2c2036ee2a21991".

(** The f-string of lines 144-147. *)
Definition news_url (query : string) (max_articles : Z) : string :=
  "https://newsapi.org/v2/everything?" +:+
  "q=" +:+ query +:+ "&sortBy=publishedAt&language=en&pageSize=" +:+
  pretty max_articles +:+ "&apiKey=" +:+ NEWSAPI_KEY.

(** [data.get(key, default)]: only a dict has the method. *)
Definition dict_get (data : json) (key : string) (default : json) : attempt json :=
  match data with
  | JObj fields =>
      match list_find (fun kv => kv.1 = key) fields with
      | Some (_, kv) => pure kv.2
      | None => pure default
      end
  | _ => raise AttributeError
  end.

(** The body of the [try] block. *)
Definition fetch (requests_get : string -> reply)
    (query : string) (max_articles : Z) : attempt json :=
  let! resp := http_get requests_get (news_url query max_articles) in
  let! data := resp_json resp in
  dict_get data "articles" (JArr []).

(** What the script puts on the page. *)
Inductive widget :=
| Header (title : string)
| ErrorBox (e : exn)
| Info (msg : string)
| Subheader (title : json)
| Caption (source_name published : json)
| Text (body : json)
| Link (url : json)
| Rule.

(** [fetch_threat_news]: the value it returns and what it puts on the page;
    the handler shows the error with [st.error] and returns []. *)
Definition fetch_threat_news (requests_get : string -> reply)
    (query : string) (max_articles : Z) : attempt (json * list widget) :=
  try_except
    (let! articles := fetch requests_get query max_articles in
     pure (articles, []))
    (fun e => pure (JArr [], [ErrorBox e])).

(** Python's truth value of a decoded JSON value. *)
Definition truthy (v : json) : bool :=
  match v with
  | JNull => false
  | JBool b => b
  | JNum q => negb (Qeq_bool q 0)
  | JStr s => negb (String.eqb s "")
  | JArr [] => false
  | JArr (_ :: _) => true
  | JObj [] => false
  | JObj (_ :: _) => true
  end.

(** [for article in v]: a list gives its items, a dict its keys, a text
    its characters; nothing else can be iterated. *)
Definition iterate (v : json) : attempt (list json) :=
  match v with
  | JArr items => pure items
  | JObj fields => pure ((fun kv => JStr kv.1) <$> fields)
  | JStr s => pure ((fun c => JStr (String c EmptyString)) <$> list_ascii_of_string s)
  | _ => raise TypeError
  end.

(** Lines 257-262, for one article. *)
Definition render_article (article : json) : attempt (list widget) :=
  let! title := json_getitem article "title" in
  let! source := json_getitem article "source" in
  let! name := json_getitem source "name" in
  let! published := json_getitem article "publishedAt" in
  let! description := dict_get article "description" (JStr "") in
  let! url := dict_get article "url" JNull in
  pure ([Subheader title; Caption name published; Text description]
        ++ (if truthy url then [Link url] else []) ++ [Rule])%list.

Fixpoint render_articles (articles : list json) : attempt (list widget) :=
  match articles with
  | [] => pure []
  | article :: rest =>
      let! page := render_article article in
      let! pages := render_articles rest in
      pure (page ++ pages)%list
  end.

(** Lines 253-262, from the fetched value on. *)
Definition news_tab (news_articles : json) : attempt (list widget) :=
  if truthy news_articles then
    let! articles := iterate news_articles in
    render_articles articles
  else pure [Info "No news available at the moment."].

(** Lines 250-262: the header, the fetch with what it shows, the articles. *)
Definition tab5 (requests_get : string -> reply) : attempt (list widget) :=
  let! fetched := fetch_threat_news requests_get "cyber attack" 5 in
  let! page := news_tab fetched.1 in
  pure ([Header "📰 Cybersecurity News Feed"] ++ fetched.2 ++ page)%list.

(** An article with the three fields the tab reads without a default. *)
Definition complete (article : json) : Prop :=
  ∃ title source name published,
    json_getitem article "title" = pure title ∧
    json_getitem article "source" = pure source ∧
    json_getitem source "name" = pure name ∧
    json_getitem article "publishedAt" = pure published.
End Kratos28News.

(** ** Kratos16_app.py: the fallback geo table and the marker test *)
Module Kratos16Geo.
Definition GEO_MAP_FALLBACK : gmap string (Q * Q) :=
  list_to_map
    [ ("10.0.0.1", (38.0, -97.0)%Q);
      ("192.168.1.5", (51.5, -0.1)%Q);
      ("203.0.113.9", (35.7, 139.7)%Q);
      ("198.51.100.77", (55.7, 37.6)%Q);
      ("8.8.8.8", (37.386, -122.0838)%Q);
      ("1.1.1.1", (-33.4940, 143.2104)%Q) ].

(** [GEO_MAP_FALLBACK.get(ip, (0,0))] *)
Definition fallback (ip : cell) : coords :=
  match ip with
  | CStr s =>
      match GEO_MAP_FALLBACK !! s with
      | Some (la, lo) => (FVal la, FVal lo)
      | None => unlocated
      end
  | _ => unlocated
  end.

(** Lines 86-94: the loop appends to the two lists. *)
Definition geolocate_ips (series : list cell) : list pyfloat * list pyfloat :=
  foldl (fun acc ip =>
           let coord := fallback ip in
           ((acc.1 ++ [coord.1])%list, (acc.2 ++ [coord.2])%list))
        ([], []) series.
End Kratos16Geo.

(** ** Kratos16_app.py: the alert table (lines 62-74 and 171-174) *)
Module Kratos16Alerts.
(** [df[name] = values]: pandas raises when the values are not as many as
    the rows. *)
Definition set_column {A B C} (f : A -> B -> C) (rows : list A) (values : list B)
    : script (list C) :=
  if decide (length values = length rows) then Go (zip_with f rows values)
  else Crashed ValueError.

(** [classify_severity(df_alerts)]: [_sev], the rule of Kratos28, on every
    row; an empty frame gets an empty column. *)
Definition classify_severity (df_alerts : list ScoredRow)
    : script (list (ScoredRow * Severity)) :=
  match df_alerts with
  | [] => set_column pair df_alerts ([] : list Severity)
  | _ => set_column pair df_alerts ((fun r : ScoredRow => classify_severity r) <$> df_alerts)
  end.

(** Lines 172-174. *)
Definition enrich (alerts : list ScoredRow) : script (list Alert) :=
  do alerts <- classify_severity alerts;
  let columns :=
    Kratos16Geo.geolocate_ips
      ((fun rs : ScoredRow * Severity => source_ip rs.1) <$> alerts) in
  do with_lat <- set_column pair alerts columns.1;
  set_column (fun rsl lo => mkAlert rsl.1.1 rsl.1.2 rsl.2 lo) with_lat columns.2.
End Kratos16Alerts.

(** [x == 0] on a float: NaN equals no number. *)
Definition eq0 (x : pyfloat) : bool :=
  match x with
  | FVal q => Qeq_bool q 0
  | _ => false
  end.

(** The marker loop of Kratos16 (lines 274-277) and Kratos20 (207-212):
    [if pd.isna(lat) or pd.isna(lon) or (lat == 0 and lon == 0): continue] *)
Definition skipped (a : Alert) : bool :=
  isna (lat a) || isna (lon a) || (eq0 (lat a) && eq0 (lon a)).

Definition markers_unless_skipped (view : list Alert) : list CircleMarker :=
  (fun a => mkMarker (location_of a) (severity_color (severity a)))
  <$> filter (fun a => skipped a = false) view.

(** ** Response simulation (script "Kratos3", lines 128-157 of the unnamed
       part) *)
Module Kratos3Simulation.
(** Line 136: the bounds and the default of the "top N" slider. *)
Definition sample_rate_max (n_alerts : Z) : Z := Z.min 50 (Z.max 1 n_alerts).
Definition sample_rate_default (n_alerts : Z) : Z := Z.min 5 (Z.max 1 n_alerts).

(** Line 139: [st.metric("Alerts targeted", min(sample_rate, len(alerts)))] *)
Definition alerts_targeted (sample_rate : Z) (alerts : list ScoredRow) : Z :=
  Z.min sample_rate (Z.of_nat (length alerts)).

(** [df.head(n)]: the first n rows, or all but the last -n when n < 0. *)
Definition head {A} (n : Z) (l : list A) : list A :=
  if bool_decide (0 <= n) then take (Z.to_nat n) l
  else take (length l - Z.to_nat (- n)) l.

(** Order of [sort_values(by="failed_logins", ascending=False)]. *)
Definition more_logins (a b : ScoredRow) : Prop :=
  failed_logins b <= failed_logins a.

#[global] Instance more_logins_dec a b : Decision (more_logins a b).
Proof. unfold more_logins. apply _. Defined.

(** Lines 148-150. Among alerts with the same number of failed logins the
    order is that of pandas' sort, which is not modelled. *)
Definition candidates (severity_threshold sample_rate : Z)
    (alerts : list ScoredRow) : list ScoredRow :=
  head sample_rate
    (merge_sort more_logins
       (filter (fun a : ScoredRow => severity_threshold <= failed_logins a) alerts)).
End Kratos3Simulation.

(** The tiers of the script "Kratos 8", ranked as [severity_rank] ranks
    those of Kratos28. *)
Definition label_rank (l : Kratos8.label) : Z :=
  match l with
  | Kratos8.LOW => 0
  | Kratos8.MEDIUM => 1
  | Kratos8.HIGH => 2
  end.

(** [c] does not occur in [s]. *)
Fixpoint free_of (c : Ascii.ascii) (s : string) : bool :=
  match s with
  | EmptyString => true
  | String c' rest => negb (Ascii.eqb c' c) && free_of c rest
  end.

(** What lines 112 and 135 of Kratos28 make of a flagged row [r]: the alert
    [a] of that row, with its severity and the coordinates looked up for its
    source. *)
Module Kratos28Alerts.
Definition enriched
    (requests_get : string -> reply) (py_float : string -> option pyfloat)
    (r : ScoredRow) (a : Alert) : Prop :=
  alert_row a = r ∧
  severity a = classify_severity r ∧
  (Kratos28Geo.real_geolocate requests_get py_float (source_ip r)).1
    = inr (lat a, lon a).
End Kratos28Alerts.

(** ** Sample data for the examples *)

(** Rows for the examples: only the two features and the score matter. *)
Definition sample_row (bytes logins : Z) : Row Z :=
  mkRow (Some 0) (CStr "8.8.8.8") (CStr "10.0.0.100") bytes logins ∅.

Definition sample_scored (bytes logins label : Z) : ScoredRow :=
  mkScored (sample_row bytes logins) label.

(** A row of the injected kind that the scorer flagged. *)
Definition injected_row : ScoredRow := sample_scored 7000 15 (-1).

(** An upload of one record whose byte count is a negative integer and
    whose login count is no number. *)
Definition frame_with_negative_bytes : DataFrame :=
  mkFrame ["timestamp"; "source_ip"; "dest_ip"; "bytes_sent"; "failed_logins"]
          [ {[ "timestamp" := CStr "2025-01-01 00:00:00";
               "source_ip" := CStr "8.8.8.8";
               "dest_ip" := CStr "10.0.0.100";
               "bytes_sent" := CInt (-5);
               "failed_logins" := CStr "n/a" ]} ].

(** A timestamp parser for the one date of the examples (midnight of
    2025-01-01, in nanoseconds since the epoch). *)
Definition new_year : Z := 1735689600000000000.

Definition sample_datetime (c : cell) : option Z :=
  match c with
  | CStr s => if String.eqb s "2025-01-01 00:00:00" then Some new_year else None
  | _ => None
  end.

(** A text parser that reads no text as a number; for examples whose cells
    are not numeric text. *)
Definition no_number : string -> option number := fun _ => None.

(** A slider for the examples: it returns the position asked for, kept on
    the track, or else its default. *)
Definition sample_slider (lo hi value : Z) (drag : option Z) : script Z :=
  Go (match drag with
      | Some asked => Z.max lo (Z.min hi asked)
      | None => value
      end).

(** Uploads of two records, the second without a timestamp that parses
    (so that it sorts last), whose byte counts are 2^53 + 1 and, in turn, a
    second integer, the float 10^19, infinity. *)
Definition frame_with_bytes (second : cell) : DataFrame :=
  mkFrame ["timestamp"; "source_ip"; "dest_ip"; "bytes_sent"; "failed_logins"]
          [ {[ "timestamp" := CStr "2025-01-01 00:00:00";
               "source_ip" := CStr "8.8.8.8";
               "dest_ip" := CStr "10.0.0.100";
               "bytes_sent" := CInt (2 ^ 53 + 1);
               "failed_logins" := CInt 0 ]};
            {[ "timestamp" := CStr "yesterday";
               "source_ip" := CStr "8.8.8.8";
               "dest_ip" := CStr "10.0.0.100";
               "bytes_sent" := second;
               "failed_logins" := CInt 1 ]} ].

(** An alert at a given time (nanoseconds since the epoch) and place. *)
Definition sample_alert (t : Z) (la lo : Q) : Alert :=
  mkAlert (mkScored (mkRow (Some t) (CStr "8.8.8.8") (CStr "10.0.0.100") 6000 25 ∅) (-1))
          High (FVal la) (FVal lo).

(** An ipinfo.io that never answers, and a [float] for the texts of the
    examples. *)
Definition unreachable : string -> reply := fun _ => NoReply RequestException.

Definition float_of_sample (s : string) : option pyfloat :=
  if String.eqb s "48.85" then Some (FVal 48.85%Q)
  else if String.eqb s "2.35" then Some (FVal 2.35%Q)
  else None.

(** A flagged row that comes from a private address. *)
Definition private_source_row : ScoredRow :=
  mkScored (mkRow (Some 0) (CStr "10.0.0.1") (CStr "10.0.0.100") 6000 25 ∅) (-1).

Definition unlocated_alert : Alert :=
  mkAlert private_source_row High (FVal 0%Q) (FVal 0%Q).

(** Two uploads with one record each: one lacks the column failed_logins,
    the other has the five columns and one more. *)
Definition frame_without_failed_logins : DataFrame :=
  mkFrame ["timestamp"; "source_ip"; "dest_ip"; "bytes_sent"]
          [ {[ "timestamp" := CStr "2025-01-01 00:00:00";
               "source_ip" := CStr "8.8.8.8";
               "dest_ip" := CStr "10.0.0.100";
               "bytes_sent" := CInt 120 ]} ].

Definition frame_with_extra_column : DataFrame :=
  mkFrame ["timestamp"; "source_ip"; "dest_ip"; "bytes_sent"; "failed_logins"; "user_agent"]
          [ {[ "timestamp" := CStr "2025-01-01 00:00:00";
               "source_ip" := CStr "8.8.8.8";
               "dest_ip" := CStr "10.0.0.100";
               "bytes_sent" := CInt 120;
               "failed_logins" := CInt 0;
               "user_agent" := CStr "curl" ]} ].

(** Stand-ins for the timestamp parser and the scorer in the examples. *)
Definition no_timestamp : cell -> option Z := fun _ => None.
Definition all_inliers : list (Z * Z) -> list Z := fun X => (fun _ => 1) <$> X.

(** A scorer that flags every row, and the run of Kratos28 on the upload
    with the extra column under it, nobody answering the lookups. *)
Definition all_outliers : list (Z * Z) -> list Z := fun X => (fun _ => -1) <$> X.

Definition sample_view : Kratos28.view :=
  Eval vm_compute in
    match Kratos28.run no_number sample_datetime all_outliers unreachable
                       float_of_sample sample_slider frame_with_extra_column 0 None with
    | Go v => v
    | _ => Kratos28.mkView [] [] 0 [] [] []
    end.

(** * Properties *)

(** ** Severity classifier *)

(** Decides every threshold test of the goal. *)
Ltac thresholds :=
  repeat match goal with
         | |- context [?a >? ?b] => destruct (Z.gtb_spec a b)
         end;
  simpl.

Lemma classify_severity_high (r : Row Z) :
  classify_severity r = High ↔ failed_logins r > 20 ∧ bytes_sent r > 5000.
Proof.
  unfold classify_severity. thresholds; split; intros; (lia || congruence).
Qed.

Lemma classify_severity_medium (r : Row Z) :
  classify_severity r = Medium ↔
    ¬ (failed_logins r > 20 ∧ bytes_sent r > 5000) ∧
    (failed_logins r > 5 ∨ bytes_sent r > 3000).
Proof.
  unfold classify_severity. thresholds; split; intros; (lia || congruence).
Qed.

Lemma classify_severity_low (r : Row Z) :
  classify_severity r = Low ↔
    ¬ (failed_logins r > 20 ∧ bytes_sent r > 5000) ∧
    ¬ (failed_logins r > 5 ∨ bytes_sent r > 3000).
Proof.
  unfold classify_severity. thresholds; split; intros; (lia || congruence).
Qed.

(** The classifier reads the two features of the row and nothing else. *)
Lemma classify_severity_ext (r1 r2 : Row Z) :
  bytes_sent r1 = bytes_sent r2 →
  failed_logins r1 = failed_logins r2 →
  classify_severity r1 = classify_severity r2.
Proof. unfold classify_severity. intros -> ->. reflexivity. Qed.

Lemma severity_column_lookup (alerts : list ScoredRow) (i : nat) (r : ScoredRow) :
  alerts !! i = Some r → severity_column alerts !! i = Some (classify_severity r).
Proof. intros Hi. unfold severity_column. rewrite list_lookup_fmap, Hi. reflexivity. Qed.

(** C2. The severity of a row is a total function of its pair (bytes_sent,
    failed_logins): in any two batches of alerts, two rows carrying the same
    pair of non-negative integers get one and the same severity in the
    severity column, whatever the other rows are, and that severity is High
    exactly when failed_logins > 20 and bytes_sent > 5000, otherwise Medium
    exactly when failed_logins > 5 or bytes_sent > 3000, otherwise Low. *)
Theorem severity_is_a_function_of_the_pair
    (batch1 batch2 : list ScoredRow) (i j : nat) (r1 r2 : ScoredRow) :
  batch1 !! i = Some r1 →
  batch2 !! j = Some r2 →
  0 <= bytes_sent r1 →
  0 <= failed_logins r1 →
  bytes_sent r2 = bytes_sent r1 →
  failed_logins r2 = failed_logins r1 →
  ∃ s : Severity,
    severity_column batch1 !! i = Some s ∧
    severity_column batch2 !! j = Some s ∧
    (s = High ↔ failed_logins r1 > 20 ∧ bytes_sent r1 > 5000) ∧
    (s = Medium ↔
       ¬ (failed_logins r1 > 20 ∧ bytes_sent r1 > 5000) ∧
       (failed_logins r1 > 5 ∨ bytes_sent r1 > 3000)) ∧
    (s = Low ↔
       ¬ (failed_logins r1 > 20 ∧ bytes_sent r1 > 5000) ∧
       ¬ (failed_logins r1 > 5 ∨ bytes_sent r1 > 3000)).
Proof.
  intros H1 H2 _ _ Hb Hf.
  exists (classify_severity r1). split_and!.
  - by apply severity_column_lookup.
  - rewrite (severity_column_lookup _ _ _ H2).
    f_equal. by apply classify_severity_ext.
  - apply classify_severity_high.
  - apply classify_severity_medium.
  - apply classify_severity_low.
Qed.

(** C10. The classifier is monotone: raising bytes_sent or failed_logins (or
    both) never lowers the severity, in the order Low < Medium < High. *)
Theorem classify_severity_monotone (r1 r2 : Row Z) :
  bytes_sent r1 <= bytes_sent r2 →
  failed_logins r1 <= failed_logins r2 →
  severity_le (classify_severity r1) (classify_severity r2).
Proof.
  intros Hb Hf. unfold severity_le, classify_severity.
  thresholds; lia.
Qed.

Lemma severity_is_a_function_of_the_pair_witness :
  ∃ s : Severity,
    severity_column [sample_scored 6000 25 (-1)] !! 0%nat = Some s ∧
    severity_column [sample_scored 100 1 (-1); sample_scored 6000 25 (-1)] !! 1%nat
      = Some s ∧
    (s = High ↔ 25 > 20 ∧ 6000 > 5000) ∧
    (s = Medium ↔ ¬ (25 > 20 ∧ 6000 > 5000) ∧ (25 > 5 ∨ 6000 > 3000)) ∧
    (s = Low ↔ ¬ (25 > 20 ∧ 6000 > 5000) ∧ ¬ (25 > 5 ∨ 6000 > 3000)).
Proof.
  apply (severity_is_a_function_of_the_pair
           [sample_scored 6000 25 (-1)]
           [sample_scored 100 1 (-1); sample_scored 6000 25 (-1)]
           0%nat 1%nat (sample_scored 6000 25 (-1)) (sample_scored 6000 25 (-1)));
    simpl; (reflexivity || lia).
Defined.

Lemma classify_severity_monotone_witness :
  severity_le (classify_severity (sample_row 100 1))
              (classify_severity (sample_row 6000 25)).
Proof.
  apply (classify_severity_monotone (sample_row 100 1) (sample_row 6000 25));
    simpl; lia.
Defined.

(** The scenario "bytes_sent=100, failed_logins=1": Low. *)
Example quiet_row_is_low : classify_severity (sample_row 100 1) = Low.
Proof. reflexivity. Qed.

(** The rule of the script "Kratos 8" is another one: 21 failed logins
    alone already give its top label. *)
Example kratos8_rule_differs :
  Kratos8.classify (sample_row 0 21) = Kratos8.HIGH ∧
  classify_severity (sample_row 0 21) = Medium.
Proof. split; reflexivity. Qed.

(** C1, as stated, fails: a flagged row with bytes_sent = 7000 and
    failed_logins = 15 is inside both intervals and is classified Medium. *)
Lemma injected_row_is_medium :
  injected_row ∈ outliers [injected_row] ∧
  5000 <= bytes_sent injected_row <= 10000 ∧
  10 <= failed_logins injected_row <= 50 ∧
  score injected_row = -1 ∧
  classify_severity injected_row = Medium ∧
  classify_severity injected_row ≠ High.
Proof.
  split_and!; try (simpl; lia); try reflexivity; try discriminate.
  unfold outliers. apply list_elem_of_filter. split; [reflexivity | set_solver].
Qed.

(** C1, amended. A row with bytes_sent in [5000,10000] and failed_logins in
    [10,50] that the scorer flagged is an alert, and its severity is High
    exactly when failed_logins > 20 and bytes_sent > 5000 and Medium
    otherwise; it is never Low. *)
Theorem injected_rows_high_or_medium (logs : list ScoredRow) (r : ScoredRow) :
  r ∈ logs →
  5000 <= bytes_sent r <= 10000 →
  10 <= failed_logins r <= 50 →
  score r = -1 →
  r ∈ outliers logs ∧
  (classify_severity r = High ↔ failed_logins r > 20 ∧ bytes_sent r > 5000) ∧
  (classify_severity r = Medium ↔ ¬ (failed_logins r > 20 ∧ bytes_sent r > 5000)) ∧
  classify_severity r ≠ Low.
Proof.
  intros Hin Hb Hf Hs. split_and!.
  - unfold outliers. apply list_elem_of_filter. by split.
  - apply classify_severity_high.
  - rewrite classify_severity_medium. intuition lia.
  - rewrite classify_severity_low. intuition lia.
Qed.

Lemma injected_rows_high_or_medium_witness :
  sample_scored 9000 30 (-1) ∈ outliers [sample_scored 100 1 1; sample_scored 9000 30 (-1)] ∧
  (classify_severity (sample_scored 9000 30 (-1)) = High ↔ 30 > 20 ∧ 9000 > 5000) ∧
  (classify_severity (sample_scored 9000 30 (-1)) = Medium ↔ ¬ (30 > 20 ∧ 9000 > 5000)) ∧
  classify_severity (sample_scored 9000 30 (-1)) ≠ Low.
Proof.
  apply (injected_rows_high_or_medium
           [sample_scored 100 1 1; sample_scored 9000 30 (-1)]
           (sample_scored 9000 30 (-1)));
    [set_solver | simpl; lia | simpl; lia | reflexivity].
Defined.

(** ** Script steps *)

Lemma for_each_Go {A B} (f : A -> script B) (l : list A) (ys : list B) :
  for_each f l = Go ys → Forall2 (fun x y => f x = Go y) l ys.
Proof.
  revert ys. induction l as [|x rest IH]; intros ys; simpl.
  - intros [= <-]. constructor.
  - destruct (f x) as [y| |] eqn:Hx; simpl; [|discriminate..].
    destruct (for_each f rest) as [ys'| |]; simpl; [|discriminate..].
    intros [= <-]. constructor; [done | by apply IH].
Qed.

(** ** Feature normaliser *)

(** [Z.quot] is the truncation toward zero. *)
Lemma quot_truncates (n d : Z) :
  0 < d →
  (0 <= n → d * Z.quot n d <= n < d * (Z.quot n d + 1)) ∧
  (n <= 0 → d * (Z.quot n d - 1) < n <= d * Z.quot n d).
Proof.
  intros Hd. pose proof (Z.quot_rem' n d) as Hqr. split; intros Hn.
  - pose proof (Z.rem_bound_pos n d Hn Hd). lia.
  - assert (Hopp : Z.rem n d = - Z.rem (- n) d).
    { rewrite Z.rem_opp_l by lia. lia. }
    pose proof (Z.rem_bound_pos (- n) d ltac:(lia) Hd). lia.
Qed.

Lemma astype_int_in_range (q : Q) :
  (inject_Z INT64_MIN <= q)%Q → (q <= inject_Z INT64_MAX)%Q →
  astype_int q = Z.quot (Qnum q) (Z.pos (Qden q)).
Proof.
  unfold Qle, astype_int. simpl. intros Hlo Hhi.
  destruct (quot_truncates (Qnum q) (Z.pos (Qden q))) as [Hpos Hneg]; [lia|].
  rewrite bool_decide_eq_true_2; [done|].
  unfold INT64_MIN, INT64_MAX in *.
  destruct (Z.le_ge_cases 0 (Qnum q)) as [Hn|Hn]; [specialize (Hpos Hn) | specialize (Hneg ltac:(lia))];
    nia.
Qed.

Lemma astype_int_truncates (q : Q) :
  (inject_Z INT64_MIN <= q)%Q → (q <= inject_Z INT64_MAX)%Q →
  truncated q (astype_int q).
Proof.
  intros Hlo Hhi. rewrite astype_int_in_range by done.
  destruct (quot_truncates (Qnum q) (Z.pos (Qden q))) as [Hpos Hneg]; [lia|].
  unfold truncated, Qle, Qlt. simpl. split; intros Hq.
  - specialize (Hpos ltac:(lia)). lia.
  - specialize (Hneg ltac:(lia)). lia.
Qed.

Lemma astype_int_integer (z : Z) :
  INT64_MIN <= z <= INT64_MAX → astype_int (inject_Z z) = z.
Proof.
  intros Hz. unfold astype_int. simpl. rewrite Z.quot_1_r.
  by rewrite bool_decide_eq_true_2.
Qed.

(** An integer of magnitude at most 2^53 is a float64. *)
Lemma float64_of_int_exact (z : Z) : Z.abs z <= 2 ^ 53 → float64_of_int z = z.
Proof.
  intros Hz. unfold float64_of_int.
  destruct (Z.leb_spec (Z.log2 (Z.abs z) + 1) 53) as [|Hbits]; [done|].
  assert (Habs : Z.abs z = 2 ^ 53).
  { assert (0 < Z.abs z) as Hpos.
    { destruct (decide (Z.abs z = 0)) as [H0|]; [|lia].
      rewrite H0 in Hbits. simpl in Hbits. lia. }
    pose proof (Z.log2_spec _ Hpos) as [Hlog _].
    assert (2 ^ 53 <= 2 ^ Z.log2 (Z.abs z)) by (apply Z.pow_le_mono_r; lia).
    lia. }
  destruct (Z.abs_eq_or_opp z) as [Heq|Heq]; rewrite Heq in Habs.
  - subst z. reflexivity.
  - assert (z = - 2 ^ 53) as -> by lia. reflexivity.
Qed.

(** What [astype(int)] does to a float64 column. *)
Lemma astype_int_column_outcome (xs : list pyfloat) :
  match for_each astype_int_checked xs with
  | Go vs => Forall (fun x => ∃ q, x = FVal q) xs
  | Stopped _ => False
  | Crashed e => e = ValueError ∧ Exists (fun x => ∀ q, x ≠ FVal q) xs
  end.
Proof.
  induction xs as [|x rest IH]; simpl; [constructor|].
  destruct x as [|negative|q]; simpl.
  - split; [done|]. by left.
  - split; [done|]. by left.
  - destruct (for_each astype_int_checked rest); simpl.
    + constructor; eauto.
    + done.
    + destruct IH as [-> Hex]. split; [done|]. by right.
Qed.

Section NormalizerFacts.
Variable parse_number : string -> option number.
Variable to_datetime : cell -> option Z.

Lemma to_numeric_integer (c : cell) (z : Z) :
  reads_integer parse_number c z → to_numeric parse_number c = Int64 z.
Proof. intros [[->|(s & -> & Hs)] _]; simpl; [done | by rewrite Hs]. Qed.

Lemma to_numeric_float (c : cell) (x : pyfloat) :
  reads_float parse_number c x → to_numeric parse_number c = Float64 x.
Proof. intros [->|(s & -> & Hs)]; simpl; [done | by rewrite Hs]. Qed.

Lemma to_numeric_nothing (c : cell) :
  reads_nothing parse_number c → to_numeric parse_number c = Float64 FNaN.
Proof.
  intros [Hf|(s & -> & Hs)]; [by apply to_numeric_float | simpl; by rewrite Hs].
Qed.

Lemma to_numeric_infinity (c : cell) (negative : bool) :
  to_numeric parse_number c = Float64 (FInf negative) →
  reads_float parse_number c (FInf negative).
Proof.
  destruct c as [z|x|s]; simpl; [discriminate | intros [= ->]; by left |].
  destruct (parse_number s) as [n|] eqn:Hs; simpl; [|discriminate].
  intros ->. right. eauto.
Qed.

(** A column of integers is an int64 column. *)
Lemma integer_column_int64 (col : list cell) :
  integer_column parse_number col →
  is_Some (mapM as_int (to_numeric parse_number <$> col)).
Proof.
  intros Hcol. apply mapM_is_Some_2, Forall_fmap.
  eapply Forall_impl; [exact Hcol|]. intros c [z Hz]. simpl.
  by rewrite (to_numeric_integer _ _ Hz).
Qed.

Lemma coerce_column_Go (col : list cell) (vs : list Z) :
  coerce_column parse_number col = Go vs →
  Forall2 (coerced parse_number col) col vs.
Proof.
  unfold coerce_column.
  destruct (mapM as_int (to_numeric parse_number <$> col)) as [ints|] eqn:Hm.
  - intros [= <-]. apply mapM_Some_1, Forall2_fmap_l in Hm.
    eapply Forall2_impl; [exact Hm|]. intros c v Hc. simpl in Hc.
    unfold coerced. split_and!.
    + intros Hn. rewrite (to_numeric_nothing _ Hn) in Hc. discriminate.
    + intros z Hz _. rewrite (to_numeric_integer _ _ Hz) in Hc. by injection Hc.
    + intros z Hz _. rewrite (to_numeric_integer _ _ Hz) in Hc. by injection Hc.
    + intros q Hq. rewrite (to_numeric_float _ _ Hq) in Hc. discriminate.
  - intros Hgo. apply for_each_Go in Hgo. rewrite !Forall2_fmap_l in Hgo.
    eapply Forall2_impl; [exact Hgo|]. intros c v Hc. simpl in Hc.
    unfold coerced. split_and!.
    + intros Hn. rewrite (to_numeric_nothing _ Hn) in Hc. simpl in Hc.
      by injection Hc as <-.
    + intros z _ Hcol. apply integer_column_int64 in Hcol.
      rewrite Hm in Hcol. by destruct Hcol.
    + intros z Hz Hsmall. rewrite (to_numeric_integer _ _ Hz) in Hc. simpl in Hc.
      rewrite float64_of_int_exact in Hc by done.
      injection Hc as <-. apply astype_int_integer. apply Hz.
    + intros q Hq Hlo Hhi. rewrite (to_numeric_float _ _ Hq) in Hc. simpl in Hc.
      injection Hc as <-. by apply astype_int_truncates.
Qed.

Lemma coerce_column_length (col : list cell) (vs : list Z) :
  coerce_column parse_number col = Go vs → length vs = length col.
Proof. intros Hgo. symmetry. eapply Forall2_length, coerce_column_Go, Hgo. Qed.

(** The coercion of a column never stops the run; it raises exactly when a
    cell of the column reads as an infinity, and then ValueError. *)
Lemma coerce_column_Stopped (col : list cell) (msg : string) :
  coerce_column parse_number col ≠ Stopped msg.
Proof.
  unfold coerce_column. destruct (mapM _ _); [discriminate|].
  pose proof (astype_int_column_outcome
                (fillna 0%Q <$> (as_float <$> (to_numeric parse_number <$> col)))) as Hout.
  intros Heq. by rewrite Heq in Hout.
Qed.

Lemma coerce_column_Crashed (col : list cell) (e : exn) :
  coerce_column parse_number col = Crashed e ↔
    e = ValueError ∧ holds_infinity parse_number col.
Proof.
  unfold coerce_column.
  pose proof (astype_int_column_outcome
                (fillna 0%Q <$> (as_float <$> (to_numeric parse_number <$> col)))) as Hout.
  split.
  - destruct (mapM _ _); [discriminate|]. intros Heq. rewrite Heq in Hout.
    destruct Hout as [-> Hex]. split; [done|].
    rewrite !Exists_fmap in Hex. apply Exists_exists in Hex as (c & Hc & Hnot).
    simpl in Hnot.
    destruct (to_numeric parse_number c) as [z|[|negative|q]] eqn:Hread; simpl in Hnot.
    + by destruct (Hnot (inject_Z (float64_of_int z))).
    + by destruct (Hnot 0%Q).
    + exists c, negative. split; [done|]. by apply to_numeric_infinity.
    + by destruct (Hnot q).
  - intros [-> (c & negative & Hc & Hinf)].
    apply to_numeric_float in Hinf.
    assert (Hm : mapM as_int (to_numeric parse_number <$> col) = None).
    { apply mapM_None, Exists_fmap, Exists_exists. exists c. split; [done|].
      simpl. by rewrite Hinf. }
    rewrite Hm.
    destruct (for_each _ _) as [vs|msg|e]; [|done|by destruct Hout as [-> _]].
    rewrite !Forall_fmap in Hout. rewrite Forall_forall in Hout.
    destruct (Hout c Hc) as [q Hq]. simpl in Hq. rewrite Hinf in Hq. discriminate.
Qed.

(** Sorting moves rows, it neither drops nor invents one. *)
Lemma sort_values_elem_of {N} (logs : list (Row N)) (r : Row N) :
  r ∈ sort_values logs ↔ r ∈ logs.
Proof. unfold sort_values. by rewrite merge_sort_Permutation. Qed.

Lemma sorted_bytes_column (frame : DataFrame) :
  bytes_sent <$> sort_values (parse_timestamps to_datetime frame)
  ≡ₚ column frame "bytes_sent".
Proof.
  unfold sort_values, parse_timestamps, column.
  rewrite merge_sort_Permutation, <- list_fmap_compose. reflexivity.
Qed.

Lemma sorted_logins_column (frame : DataFrame) :
  failed_logins <$> sort_values (parse_timestamps to_datetime frame)
  ≡ₚ column frame "failed_logins".
Proof.
  unfold sort_values, parse_timestamps, column.
  rewrite merge_sort_Permutation, <- list_fmap_compose. reflexivity.
Qed.

Lemma holds_infinity_perm (col col' : list cell) :
  col ≡ₚ col' → holds_infinity parse_number col ↔ holds_infinity parse_number col'.
Proof.
  intros Hp. unfold holds_infinity.
  split; intros (c & negative & Hc & Hinf); exists c, negative;
    (split; [|done]); [by rewrite <- Hp | by rewrite Hp].
Qed.

Lemma coerced_perm (col col' : list cell) (c : cell) (v : Z) :
  col ≡ₚ col' → coerced parse_number col c v → coerced parse_number col' c v.
Proof.
  intros Hp (Hnothing & Hkept & Hsmall & Hfloat). unfold coerced. split_and!; try done.
  intros z Hz Hcol. apply Hkept; [done|]. unfold integer_column in *. by rewrite Hp.
Qed.

Lemma parse_timestamps_reads (frame : DataFrame) (raw : Row cell) :
  raw ∈ parse_timestamps to_datetime frame →
  ∃ record : gmap string cell,
    record ∈ records frame ∧
    bytes_sent raw = at_col record "bytes_sent" ∧
    failed_logins raw = at_col record "failed_logins".
Proof.
  unfold parse_timestamps. intros Hraw.
  apply list_elem_of_fmap in Hraw as (record & -> & Hrecord).
  by exists record.
Qed.

Lemma parse_timestamps_has (frame : DataFrame) (record : gmap string cell) :
  record ∈ records frame →
  ∃ raw : Row cell,
    raw ∈ parse_timestamps to_datetime frame ∧
    timestamp raw = to_datetime (at_col record "timestamp") ∧
    source_ip raw = at_col record "source_ip" ∧
    dest_ip raw = at_col record "dest_ip" ∧
    bytes_sent raw = at_col record "bytes_sent" ∧
    failed_logins raw = at_col record "failed_logins" ∧
    extra raw = filter (fun kv => kv.1 ∉ required_cols) record.
Proof.
  intros Hrecord. eexists. split.
  - unfold parse_timestamps. apply list_elem_of_fmap.
    exists record. split; [reflexivity | done].
  - simpl. by split_and!.
Qed.

(** The rows after lines 93-94: those before, with the two new columns. *)
Lemma set_numbers_rows (rows : list (Row cell)) (bytes logins : list Z) :
  length bytes = length rows → length logins = length rows →
  Forall2 (fun (raw : Row cell) (r : Row Z) =>
             timestamp r = timestamp raw ∧ source_ip r = source_ip raw ∧
             dest_ip r = dest_ip raw ∧ extra r = extra raw)
          rows (set_numbers rows bytes logins) ∧
  bytes_sent <$> set_numbers rows bytes logins = bytes ∧
  failed_logins <$> set_numbers rows bytes logins = logins.
Proof.
  revert bytes logins. induction rows as [|raw rows IH]; intros bytes logins Hb Hl.
  - destruct bytes, logins; try discriminate. by split_and!.
  - destruct bytes as [|b bytes], logins as [|l logins]; try discriminate.
    destruct (IH bytes logins) as (Hrows & Hbytes & Hlogins); [by injection Hb | by injection Hl |].
    unfold set_numbers in *. simpl. split_and!.
    + by constructor.
    + by f_equal.
    + by f_equal.
Qed.

(** How the normaliser goes on. *)
Lemma normalize_Go (frame : DataFrame) (logs : list (Row Z)) :
  normalize parse_number to_datetime frame = Go logs →
  all_nat (parse_timestamps to_datetime frame) = false ∧
  ∃ bytes logins,
    coerce_column parse_number
      (bytes_sent <$> sort_values (parse_timestamps to_datetime frame)) = Go bytes ∧
    coerce_column parse_number
      (failed_logins <$> sort_values (parse_timestamps to_datetime frame)) = Go logins ∧
    logs = set_numbers (sort_values (parse_timestamps to_datetime frame)) bytes logins.
Proof.
  unfold normalize. destruct (all_nat _); [discriminate|].
  destruct (coerce_column _ (bytes_sent <$> _)) as [bytes| |]; simpl; [|discriminate..].
  destruct (coerce_column _ (failed_logins <$> _)) as [logins| |]; simpl; [|discriminate..].
  intros [= <-]. split; [done|]. by exists bytes, logins.
Qed.

Lemma all_nat_spec {N} (logs : list (Row N)) :
  all_nat logs = true ↔ ∀ r, r ∈ logs → timestamp r = None.
Proof.
  unfold all_nat. induction logs as [|r rest IH]; simpl.
  - split; [intros _ r Hr; by apply elem_of_nil in Hr | done].
  - rewrite andb_true_iff, bool_decide_eq_true, IH. split.
    + intros [Hr Hrest] r' Hr'. apply elem_of_cons in Hr' as [->|Hr']; auto.
    + intros Hall. split; [apply Hall; left | intros r' Hr'; apply Hall; by right].
Qed.

Lemma all_nat_records (frame : DataFrame) :
  all_nat (parse_timestamps to_datetime frame) = true ↔
    ∀ record, record ∈ records frame → to_datetime (at_col record "timestamp") = None.
Proof.
  rewrite all_nat_spec. split.
  - intros Hall record Hrecord.
    destruct (parse_timestamps_has frame record Hrecord) as (raw & Hraw & <- & _).
    by apply Hall.
  - intros Hnone r Hr. unfold parse_timestamps in Hr.
    apply list_elem_of_fmap in Hr as (record & -> & Hrecord). simpl. by apply Hnone.
Qed.

Lemma some_timestamp_parses (frame : DataFrame) :
  all_nat (parse_timestamps to_datetime frame) = false ↔
    ∃ record, record ∈ records frame ∧ to_datetime (at_col record "timestamp") ≠ None.
Proof.
  split.
  - intros Hall.
    destruct (decide (Forall (fun record => to_datetime (at_col record "timestamp") = None)
                             (records frame))) as [Hnone|Hsome].
    + rewrite Forall_forall in Hnone. apply all_nat_records in Hnone. congruence.
    + apply not_Forall_Exists in Hsome; [|intros record; apply _].
      apply Exists_exists in Hsome as (record & Hrecord & Hts). eauto.
  - intros (record & Hrecord & Hts).
    destruct (all_nat _) eqn:Hall; [|done].
    destruct Hts. by apply (proj1 (all_nat_records frame) Hall).
Qed.

Lemma normalize_Stopped (frame : DataFrame) (msg : string) :
  normalize parse_number to_datetime frame = Stopped msg ↔
    msg = timestamps_message ∧
    ∀ record, record ∈ records frame → to_datetime (at_col record "timestamp") = None.
Proof.
  rewrite <- all_nat_records. unfold normalize.
  destruct (all_nat _); [split; [by intros [= <-] | by intros [-> _]]|].
  split; [|by intros [_ ?]].
  destruct (coerce_column _ (bytes_sent <$> _)) as [bytes|msg'|] eqn:Hb; simpl;
    [|by destruct (coerce_column_Stopped _ _ Hb)|discriminate].
  destruct (coerce_column _ (failed_logins <$> _)) as [logins|msg'|] eqn:Hl; simpl;
    [discriminate|by destruct (coerce_column_Stopped _ _ Hl)|discriminate].
Qed.

Lemma normalize_Crashed (frame : DataFrame) (e : exn) :
  normalize parse_number to_datetime frame = Crashed e ↔
    e = ValueError ∧
    (∃ record, record ∈ records frame ∧ to_datetime (at_col record "timestamp") ≠ None) ∧
    (holds_infinity parse_number (column frame "bytes_sent") ∨
     holds_infinity parse_number (column frame "failed_logins")).
Proof.
  rewrite <- some_timestamp_parses.
  rewrite <- (holds_infinity_perm _ _ (sorted_bytes_column frame)).
  rewrite <- (holds_infinity_perm _ _ (sorted_logins_column frame)).
  unfold normalize. destruct (all_nat _); [split; [discriminate | by intros (_ & ? & _)]|].
  destruct (coerce_column _ (bytes_sent <$> _)) as [bytes|msg|e'] eqn:Hb; simpl.
  - destruct (coerce_column _ (failed_logins <$> _)) as [logins|msg|e'] eqn:Hl; simpl.
    + split; [discriminate|]. intros (-> & _ & [Hinf|Hinf]).
      * assert (Hc : coerce_column parse_number
                       (bytes_sent <$> sort_values (parse_timestamps to_datetime frame))
                     = Crashed ValueError) by (by apply coerce_column_Crashed).
        congruence.
      * assert (Hc : coerce_column parse_number
                       (failed_logins <$> sort_values (parse_timestamps to_datetime frame))
                     = Crashed ValueError) by (by apply coerce_column_Crashed).
        congruence.
    + by destruct (coerce_column_Stopped _ _ Hl).
    + apply coerce_column_Crashed in Hl as [-> Hinf].
      split; [intros [= <-]; split_and!; auto | by intros (-> & _)].
  - by destruct (coerce_column_Stopped _ _ Hb).
  - apply coerce_column_Crashed in Hb as [-> Hinf].
    split; [intros [= <-]; split_and!; auto | by intros (-> & _)].
Qed.


(** A batch without rows does not reach the scorer: [all()] of no value is
    True and the run stops on the timestamp message. *)
Lemma empty_batch_stops (cols : list string) :
  normalize parse_number to_datetime (mkFrame cols []) = Stopped timestamps_message.
Proof. reflexivity. Qed.

End NormalizerFacts.



(** In a column that holds one float, every value goes through float64:
    the integer 2^53 + 1 comes out as 2^53, and the float 10^19, beyond the
    int64 range, as the least int64. In a column of integers it is kept. *)
Example mixed_column_goes_through_float64 :
  (do logs <- normalize no_number sample_datetime
                (frame_with_bytes (CFloat (FVal (inject_Z (10 ^ 19)))));
   Go (bytes_sent <$> logs))
  = Go [2 ^ 53; INT64_MIN] ∧
  (do logs <- normalize no_number sample_datetime (frame_with_bytes (CInt 7));
   Go (bytes_sent <$> logs))
  = Go [2 ^ 53 + 1; 7].
Proof. split; vm_compute; reflexivity. Qed.

(** An infinite byte count makes line 93 raise. *)
Example infinity_raises :
  normalize no_number sample_datetime (frame_with_bytes (CFloat (FInf false)))
  = Crashed ValueError.
Proof. vm_compute. reflexivity. Qed.

(** ** Timeline window *)

Lemma next_window_starts_at_end (t_min hour_pos : Z) :
  current_start t_min (hour_pos + 1) = current_end t_min hour_pos.
Proof. unfold current_end, current_start. lia. Qed.

Lemma window_is_one_hour (t_min hour_pos : Z) :
  current_start t_min hour_pos < current_end t_min hour_pos.
Proof. unfold current_end, current_start, HOUR. lia. Qed.

Lemma visible_alerts_spec (t_min hour_pos : Z) (alerts : list Alert) (a : Alert) :
  a ∈ visible_alerts t_min hour_pos alerts ↔
    a ∈ alerts ∧
    ∃ t, timestamp a = Some t ∧
         current_start t_min hour_pos <= t < current_end t_min hour_pos.
Proof.
  unfold visible_alerts. rewrite list_elem_of_filter. unfold in_window.
  destruct (timestamp a) as [t|].
  - split.
    + intros [Hw Ha]. split; [done|]. exists t. split; [done | lia].
    + intros [Ha (t' & Ht' & Hw)]. split; [|done].
      injection Ht' as ->. lia.
  - split; [intros [[] _] | intros [_ (t & Ht & _)]; discriminate].
Qed.

(** C4. At every playback position the visible alerts are exactly the alerts
    whose timestamp t satisfies window_start <= t < window_end, in their
    order in the alert table; an alert whose timestamp is window_end is not
    visible at this position and is visible at the next one, whose window
    starts there. *)
Theorem visible_alerts_half_open (t_min hour_pos : Z) (alerts : list Alert) :
  visible_alerts t_min hour_pos alerts `sublist_of` alerts ∧
  (∀ a : Alert,
     a ∈ visible_alerts t_min hour_pos alerts ↔
       a ∈ alerts ∧
       ∃ t, timestamp a = Some t ∧
            current_start t_min hour_pos <= t < current_end t_min hour_pos) ∧
  (∀ a : Alert,
     a ∈ alerts →
     timestamp a = Some (current_end t_min hour_pos) →
     (a ∉ visible_alerts t_min hour_pos alerts) ∧
     (a ∈ visible_alerts t_min (hour_pos + 1) alerts)).
Proof.
  split_and!.
  - apply sublist_filter.
  - apply visible_alerts_spec.
  - intros a Ha Ht. rewrite !visible_alerts_spec. split.
    + intros [_ (t & Ht' & Hw)]. rewrite Ht in Ht'. injection Ht' as <-. lia.
    + split; [done|]. exists (current_end t_min hour_pos). split; [done|].
      rewrite next_window_starts_at_end.
      pose proof (window_is_one_hour t_min (hour_pos + 1)) as Hlt.
      rewrite next_window_starts_at_end in Hlt. lia.
Qed.

(** An alert on the stroke of the hour: out of the first window, in the
    second. *)
Lemma visible_alerts_half_open_witness :
  (sample_alert HOUR 1 1 ∉ visible_alerts 0 0 [sample_alert 0 1 1; sample_alert HOUR 1 1]) ∧
  (sample_alert HOUR 1 1 ∈ visible_alerts 0 (0 + 1) [sample_alert 0 1 1; sample_alert HOUR 1 1]).
Proof.
  apply (visible_alerts_half_open 0 0 [sample_alert 0 1 1; sample_alert HOUR 1 1]).
  - set_solver.
  - reflexivity.
Defined.

Example first_window :
  visible_alerts 0 0 [sample_alert 0 1 1; sample_alert HOUR 1 1] = [sample_alert 0 1 1].
Proof. reflexivity. Qed.

(** The view of Kratos16 is another one: everything up to the cutoff, the
    cutoff included. *)
Example kratos16_view_is_cumulative :
  MinutePlayback.filtered_alerts (MinutePlayback.current_cutoff 0 60)
    [sample_alert 0 1 1; sample_alert HOUR 1 1; sample_alert (HOUR + 1) 1 1]
  = [sample_alert 0 1 1; sample_alert HOUR 1 1].
Proof. reflexivity. Qed.

(** ** Playback position *)

Lemma minutes_per_tick_positive (s : MinutePlayback.speed) :
  0 < MinutePlayback.minutes_per_tick s.
Proof. destruct s; simpl; lia. Qed.

(** The two scripts give the session a number of ticks that is never
    negative. *)
Lemma total_minutes_positive (t_min t_max : Z) :
  1 <= MinutePlayback.total_minutes t_min t_max.
Proof. unfold MinutePlayback.total_minutes. case_bool_decide; lia. Qed.

Lemma total_hours_nonneg (first last : Z) :
  first <= last → 0 <= total_hours (floor_H first) (ceil_H last).
Proof.
  intros Hle. unfold total_hours, floor_H, ceil_H.
  apply Z.div_pos; [|unfold HOUR; lia].
  pose proof (Z.mul_div_le first HOUR) as H1.
  pose proof (Z.mul_div_le (- last) HOUR) as H2.
  unfold HOUR in *. lia.
Qed.

(** What every run keeps, every sequence of runs keeps. *)
Lemma session_keeps {C} (run : C -> Z -> script unit * Z) (P : Z -> Prop) :
  (∀ ui pos, P pos → P (run ui pos).2) →
  ∀ runs pos, P pos → P (session run runs pos).
Proof.
  intros Hrun runs. unfold session.
  induction runs as [|ui rest IH]; intros pos Hpos; simpl; [done|].
  apply IH. by apply Hrun.
Qed.

Lemma session_unchanged {C} (run : C -> Z -> script unit * Z) (ui : C) (n : nat) (pos : Z) :
  (∀ pos, (run ui pos).2 = pos) → session run (replicate n ui) pos = pos.
Proof.
  intros Hrun. unfold session. induction n as [|n IH]; simpl; [done|].
  by rewrite Hrun.
Qed.

Section PlaybackFacts.
Variable st_slider : Z -> Z -> Z -> option Z -> script Z.
Variable st_experimental_rerun : script unit.

Lemma kratos27_auto_play (total : Z) (ui : HourPlayback.controls) (pos : Z) :
  HourPlayback.playback_auto ui = true →
  HourPlayback.kratos27 st_slider total ui pos = (Crashed RerunException, pos).
Proof. intros Hauto. unfold HourPlayback.kratos27. by rewrite Hauto. Qed.

Lemma kratos20_auto_play (total : Z) (ui : HourPlayback.controls) (pos : Z) :
  HourPlayback.playback_auto ui = true →
  HourPlayback.kratos20 st_slider total ui pos = (Crashed AttributeError, pos).
Proof. intros Hauto. unfold HourPlayback.kratos20. by rewrite Hauto. Qed.

Lemma kratos16_auto_play (total : Z) (ui : MinutePlayback.controls) (pos : Z) :
  MinutePlayback.play ui = true →
  MinutePlayback.kratos16 st_slider st_experimental_rerun total ui pos
  = (Crashed AttributeError, pos).
Proof. intros Hplay. unfold MinutePlayback.kratos16. by rewrite Hplay. Qed.

(** What the scripts rely on: a slider whose default is on the track
    returns, when it returns, a position of the track. *)
Hypothesis slider_on_track :
  ∀ lo hi value drag v,
    lo <= value <= hi → st_slider lo hi value drag = Go v → lo <= v <= hi.

Variable total : Z.
Hypothesis total_nonneg : 0 <= total.

Lemma timeline_on_track (ui : HourPlayback.controls) (pos : Z) :
  0 <= pos <= total → 0 <= (HourPlayback.timeline st_slider total ui pos).2 <= total.
Proof.
  intros Hp. unfold HourPlayback.timeline.
  set (p1 := if HourPlayback.playback_auto ui && bool_decide (pos < total)
             then pos + 1 else pos).
  assert (Hp1 : 0 <= p1 <= Z.max total 0).
  { subst p1. destruct (HourPlayback.playback_auto ui); simpl; [case_bool_decide|]; lia. }
  destruct (st_slider 0 (Z.max total 0) p1 (HourPlayback.drag ui)) as [v| |] eqn:Hs;
    simpl; [|lia..].
  apply slider_on_track in Hs; [|done]. case_bool_decide; lia.
Qed.

Lemma kratos27_on_track (ui : HourPlayback.controls) (pos : Z) :
  0 <= pos <= total → 0 <= (HourPlayback.kratos27 st_slider total ui pos).2 <= total.
Proof.
  intros Hp. unfold HourPlayback.kratos27.
  destruct (HourPlayback.playback_auto ui); [done|]. by apply timeline_on_track.
Qed.

Lemma kratos20_on_track (ui : HourPlayback.controls) (pos : Z) :
  0 <= pos <= total → 0 <= (HourPlayback.kratos20 st_slider total ui pos).2 <= total.
Proof.
  intros Hp. unfold HourPlayback.kratos20.
  destruct (HourPlayback.playback_auto ui); [done|].
  pose proof (timeline_on_track ui pos Hp) as Ht.
  destruct (HourPlayback.timeline st_slider total ui pos) as [[[]| |] p]; simpl in *;
    [|done..].
  destruct (HourPlayback.reset_clicked ui); lia.
Qed.

Lemma kratos16_on_track (ui : MinutePlayback.controls) (pos : Z) :
  0 <= pos <= total →
  0 <= (MinutePlayback.kratos16 st_slider st_experimental_rerun total ui pos).2 <= total.
Proof.
  intros Hp. unfold MinutePlayback.kratos16.
  destruct (MinutePlayback.play ui || MinutePlayback.use_local_path ui); [done|].
  set (p1 := if MinutePlayback.play ui
             then Z.min (pos + MinutePlayback.minutes_per_tick
                                 (MinutePlayback.play_step_min ui)) total
             else pos).
  assert (Hp1 : 0 <= p1 <= total).
  { subst p1. pose proof (minutes_per_tick_positive (MinutePlayback.play_step_min ui)).
    destruct (MinutePlayback.play ui); lia. }
  destruct (st_slider 0 total p1 (MinutePlayback.drag ui)) as [v| |] eqn:Hs;
    simpl; [|lia..].
  apply slider_on_track in Hs; [|done].
  destruct (MinutePlayback.reset_clicked ui); simpl; [lia|]. case_bool_decide; lia.
Qed.

End PlaybackFacts.

(** With auto-play off, the reset button of Kratos20 and of Kratos16 is
    reached whenever the slider call returns. *)
Lemma kratos20_reset
    (st_slider : Z -> Z -> Z -> option Z -> script Z)
    (total : Z) (ui : HourPlayback.controls) (pos v : Z) :
  HourPlayback.playback_auto ui = false →
  HourPlayback.reset_clicked ui = true →
  st_slider 0 (Z.max total 0) pos (HourPlayback.drag ui) = Go v →
  HourPlayback.kratos20 st_slider total ui pos = (Go tt, 0).
Proof.
  intros Hauto Hreset Hs. unfold HourPlayback.kratos20, HourPlayback.timeline.
  rewrite Hauto. simpl. rewrite Hs. by rewrite Hreset.
Qed.

Lemma kratos16_reset
    (st_slider : Z -> Z -> Z -> option Z -> script Z) (st_experimental_rerun : script unit)
    (total : Z) (ui : MinutePlayback.controls) (pos v : Z) :
  MinutePlayback.play ui = false →
  MinutePlayback.use_local_path ui = false →
  MinutePlayback.reset_clicked ui = true →
  st_slider 0 total pos (MinutePlayback.drag ui) = Go v →
  MinutePlayback.kratos16 st_slider st_experimental_rerun total ui pos
  = (st_experimental_rerun, 0).
Proof.
  intros Hplay Hlocal Hreset Hs. unfold MinutePlayback.kratos16.
  rewrite Hplay, Hlocal. simpl. rewrite Hs. by rewrite Hreset.
Qed.

(** C5, on the runs with the auto-play box checked, which are the advance
    of the claim. In Kratos16 and in Kratos20 such a run calls
    [st.experimental_autorefresh], which Streamlit does not have, and ends
    with AttributeError; in Kratos27 it ends at [st.rerun()], which starts
    the script again. Each ends before the lines that advance the position,
    at every position, the last one included, and whatever the slider
    would do: no sequence of such runs moves the position. *)
Theorem auto_play_run_ends_before_the_advance
    (st_slider : Z -> Z -> Z -> option Z -> script Z) (st_experimental_rerun : script unit)
    (total_ticks pos : Z) :
  (∀ ui, MinutePlayback.play ui = true →
         MinutePlayback.kratos16 st_slider st_experimental_rerun total_ticks ui pos
         = (Crashed AttributeError, pos)) ∧
  (∀ ui, HourPlayback.playback_auto ui = true →
         HourPlayback.kratos20 st_slider total_ticks ui pos
         = (Crashed AttributeError, pos)) ∧
  (∀ ui, HourPlayback.playback_auto ui = true →
         HourPlayback.kratos27 st_slider total_ticks ui pos
         = (Crashed RerunException, pos)) ∧
  (∀ (n : nat) step,
     session (MinutePlayback.kratos16 st_slider st_experimental_rerun total_ticks)
             (replicate n (MinutePlayback.advance step)) pos = pos) ∧
  (∀ n : nat,
     session (HourPlayback.kratos20 st_slider total_ticks)
             (replicate n HourPlayback.advance) pos = pos) ∧
  (∀ n : nat,
     session (HourPlayback.kratos27 st_slider total_ticks)
             (replicate n HourPlayback.advance) pos = pos).
Proof.
  split_and!.
  - intros ui Hplay. by apply kratos16_auto_play.
  - intros ui Hauto. by apply kratos20_auto_play.
  - intros ui Hauto. by apply kratos27_auto_play.
  - intros n step. apply session_unchanged. intros p.
    by rewrite kratos16_auto_play.
  - intros n. apply session_unchanged. intros p. by rewrite kratos20_auto_play.
  - intros n. apply session_unchanged. intros p. by rewrite kratos27_auto_play.
Qed.

(** Play checked at the last of three ticks: the run of Kratos16 dies, the
    run of Kratos27 is started again, the position stays. *)
Example advance_at_the_end :
  MinutePlayback.kratos16 sample_slider st_rerun 3
    (MinutePlayback.advance MinutePlayback.Speed5) 3
  = (Crashed AttributeError, 3) ∧
  HourPlayback.kratos27 sample_slider 3 HourPlayback.advance 3
  = (Crashed RerunException, 3).
Proof. split; reflexivity. Qed.

(** The lines that the runs with auto-play on do not reach would keep the
    claim: with a slider that is not touched and returns its default, the
    advance of Kratos27 and Kratos20 at the last position stays there, and
    below it moves one hour on. *)
Lemma advance_lines_keep_the_end
    (st_slider : Z -> Z -> Z -> option Z -> script Z) (total pos : Z) :
  (∀ lo hi value, st_slider lo hi value None = Go value) →
  0 <= pos <= total →
  HourPlayback.timeline st_slider total HourPlayback.advance pos
  = (Go tt, Z.min (pos + 1) total).
Proof.
  intros Hidle Hp. unfold HourPlayback.timeline, HourPlayback.advance. simpl.
  rewrite Hidle. rewrite bool_decide_eq_false_2 by auto.
  case_bool_decide; f_equal; lia.
Qed.

(** With the slider of the examples: a scrub far beyond the end of Kratos16
    stays on the track, and its reset button gives 0 from a position beyond
    the end and calls [st.experimental_rerun()]. *)
Example kratos16_scrub_and_reset :
  MinutePlayback.kratos16 sample_slider st_rerun 500 (MinutePlayback.scrub 9999) 0
  = (Go tt, 500) ∧
  MinutePlayback.kratos16 sample_slider st_rerun 3 MinutePlayback.reset 7
  = (st_rerun, 0).
Proof. split; reflexivity. Qed.



(** ** Geo enricher *)

Lemma try_except_failure {A} (m : attempt A) (d : A) (e : exn) :
  m.1 = inl e → (try_except m (fun _ => pure d)).1 = inr d.
Proof. unfold try_except. intros ->. reflexivity. Qed.

Lemma try_except_success {A} (m : attempt A) (handler : exn -> attempt A) (a : A) :
  m.1 = inr a → try_except m handler = m.
Proof. unfold try_except. intros ->. reflexivity. Qed.

Lemma try_except_total {A} (m : attempt A) (d : A) :
  ∃ a, (try_except m (fun _ => pure d)).1 = inr a.
Proof.
  destruct (m.1) as [e|a] eqn:Hm.
  - exists d. by eapply try_except_failure.
  - exists a. by rewrite (try_except_success _ _ a).
Qed.

Lemma and_then_pure {A B} (a : A) (k : A -> attempt B) :
  and_then (pure a) k = k a.
Proof. unfold and_then. simpl. by destruct (k a). Qed.

Section Kratos27GeoFacts.
Import Kratos27.
Variable requests_get : string -> reply.
Variable py_float : string -> option pyfloat.

Lemma real_geolocate_total (ip : cell) : ∃ c, (real_geolocate requests_get py_float ip).1 = inr c.
Proof. apply try_except_total. Qed.

Lemma real_geolocate_private (s : string) :
  existsb (fun p => String.prefix p s) private_prefixes = true →
  real_geolocate requests_get py_float (CStr s) = (inr unlocated, []).
Proof.
  intros Hp. unfold real_geolocate, lookup, startswith.
  rewrite and_then_pure, Hp. reflexivity.
Qed.

Lemma real_geolocate_not_text (ip : cell) :
  (∀ s, ip ≠ CStr s) → (real_geolocate requests_get py_float ip).1 = inr unlocated.
Proof.
  intros Hip. destruct ip as [z|x|s]; [reflexivity | reflexivity |].
  by destruct (Hip s).
Qed.

(** An identifier that goes to the live lookup: text, not private, not in
    the static table. *)
Lemma lookup_goes_live (s : string) :
  existsb (fun p => String.prefix p s) private_prefixes = false →
  STATIC_IP_MAP !! s = None →
  lookup requests_get py_float (CStr s)
  = ((live_lookup requests_get py_float IPINFO_TOKEN s).1,
     (live_lookup requests_get py_float IPINFO_TOKEN s).2).
Proof.
  intros Hp Hs. unfold lookup, startswith.
  rewrite and_then_pure, Hp. simpl ip_text. rewrite Hs.
  by destruct (live_lookup _ _ _ _).
Qed.

Lemma live_lookup_no_reply (token s : string) (e : exn) :
  requests_get (ipinfo_url token s) = NoReply e →
  (live_lookup requests_get py_float token s).1 = inl e.
Proof.
  intros Hr. unfold live_lookup, http_get, and_then. rewrite Hr. reflexivity.
Qed.

Lemma live_lookup_not_json (token s : string) :
  requests_get (ipinfo_url token s) = Body None →
  (live_lookup requests_get py_float token s).1 = inl JSONDecodeError.
Proof.
  intros Hr. unfold live_lookup, http_get, and_then. rewrite Hr. reflexivity.
Qed.

Lemma live_lookup_no_loc (token s : string) (data : json) :
  requests_get (ipinfo_url token s) = Body (Some data) →
  json_contains "loc" data = pure false →
  (live_lookup requests_get py_float token s).1 = inr unlocated.
Proof.
  intros Hr Hc. unfold live_lookup, http_get, and_then. rewrite Hr. simpl.
  rewrite Hc. reflexivity.
Qed.

Lemma live_lookup_not_iterable (token s : string) (data : json) :
  requests_get (ipinfo_url token s) = Body (Some data) →
  json_contains "loc" data = raise TypeError →
  (live_lookup requests_get py_float token s).1 = inl TypeError.
Proof.
  intros Hr Hc. unfold live_lookup, http_get, and_then. rewrite Hr. simpl.
  rewrite Hc. reflexivity.
Qed.

End Kratos27GeoFacts.

(** C6. [real_geolocate] returns a coordinate pair for every identifier and
    every behaviour of the lookup service, and never raises. A text
    identifier with a private prefix gives (0,0) and no request is made. Any
    exception inside the lookup gives (0,0); so do, for an identifier that is
    looked up live, a request that raises (timeout, network error), a body
    that is not JSON, and a document without a "loc" field or on which the
    test for it raises. *)
Theorem real_geolocate_never_raises
    (requests_get : string -> reply) (py_float : string -> option pyfloat)
    (ip : cell) :
  (∃ c, (Kratos27.real_geolocate requests_get py_float ip).1 = inr c) ∧
  (∀ s, ip = CStr s →
        existsb (fun p => String.prefix p s) private_prefixes = true →
        Kratos27.real_geolocate requests_get py_float ip = (inr unlocated, [])) ∧
  (∀ e, (Kratos27.lookup requests_get py_float ip).1 = inl e →
        (Kratos27.real_geolocate requests_get py_float ip).1 = inr unlocated) ∧
  (∀ s, ip = CStr s →
        existsb (fun p => String.prefix p s) private_prefixes = false →
        Kratos27.STATIC_IP_MAP !! s = None →
        (∀ e, requests_get (ipinfo_url Kratos27.IPINFO_TOKEN s) = NoReply e ∨
              requests_get (ipinfo_url Kratos27.IPINFO_TOKEN s) = Body None →
              (Kratos27.real_geolocate requests_get py_float ip).1 = inr unlocated) ∧
        (∀ data,
           requests_get (ipinfo_url Kratos27.IPINFO_TOKEN s) = Body (Some data) →
           json_contains "loc" data = pure false ∨
           json_contains "loc" data = raise TypeError →
           (Kratos27.real_geolocate requests_get py_float ip).1 = inr unlocated)).
Proof.
  split_and!.
  - apply real_geolocate_total.
  - intros s -> Hp. by apply real_geolocate_private.
  - intros e He. by eapply try_except_failure.
  - intros s -> Hp Hs. unfold Kratos27.real_geolocate.
    rewrite (lookup_goes_live _ _ _ Hp Hs). split.
    + intros e [Hr|Hr]; eapply try_except_failure; simpl.
      * by apply live_lookup_no_reply.
      * by apply live_lookup_not_json.
    + intros data Hr [Hc|Hc].
      * erewrite try_except_success; simpl; by eapply live_lookup_no_loc.
      * eapply try_except_failure; simpl. by eapply live_lookup_not_iterable.
Qed.

Lemma real_geolocate_never_raises_witness :
  Kratos27.real_geolocate unreachable float_of_sample (CStr "192.168.1.5")
    = (inr unlocated, []) ∧
  (Kratos27.real_geolocate unreachable float_of_sample (CStr "9.9.9.9")).1
    = inr unlocated.
Proof.
  split.
  - destruct (real_geolocate_never_raises unreachable float_of_sample (CStr "192.168.1.5"))
      as (_ & Hprivate & _).
    apply (Hprivate "192.168.1.5"); reflexivity.
  - destruct (real_geolocate_never_raises unreachable float_of_sample (CStr "9.9.9.9"))
      as (_ & _ & _ & Hlive).
    destruct (Hlive "9.9.9.9" eq_refl eq_refl eq_refl) as [Hfail _].
    apply (Hfail RequestException). left. reflexivity.
Defined.

(** The lookup of Kratos28 (no static table, a bare [except:]) is as safe. *)
Lemma kratos28_lookup_is_safe
    (requests_get : string -> reply) (py_float : string -> option pyfloat)
    (ip : cell) :
  (∃ c, (Kratos28Geo.real_geolocate requests_get py_float ip).1 = inr c) ∧
  (∀ s, ip = CStr s →
        existsb (fun p => String.prefix p s) private_prefixes = true →
        Kratos28Geo.real_geolocate requests_get py_float ip = (inr unlocated, [])) ∧
  (∀ e, (Kratos28Geo.lookup requests_get py_float ip).1 = inl e →
        (Kratos28Geo.real_geolocate requests_get py_float ip).1 = inr unlocated).
Proof.
  split_and!.
  - apply try_except_total.
  - intros s -> Hp. unfold Kratos28Geo.real_geolocate, Kratos28Geo.lookup, startswith.
    rewrite and_then_pure, Hp. reflexivity.
  - intros e He. by eapply try_except_failure.
Qed.

(** A reply without a "loc" field (an error document, say) leaves a public
    address of Kratos28 unlocated. *)
Example kratos28_reply_without_loc :
  Kratos28Geo.real_geolocate
    (fun _ => Body (Some (JObj [("status", JNum 403); ("error", JStr "Unknown token")])))
    float_of_sample (CStr "8.8.8.8")
  = (inr unlocated, [ipinfo_url Kratos28Geo.IPINFO_TOKEN "8.8.8.8"]).
Proof. reflexivity. Qed.

(** The four outcomes of the lookup of Kratos27 on sample identifiers. *)
Example geolocate_static_table :
  Kratos27.real_geolocate unreachable float_of_sample (CStr "8.8.8.8")
  = (inr (FVal 37.3861%Q, FVal (-122.0839)%Q), []).
Proof. reflexivity. Qed.

Example geolocate_live_answer :
  Kratos27.real_geolocate
    (fun _ => Body (Some (JObj [("ip", JStr "9.9.9.9"); ("loc", JStr "48.85,2.35")])))
    float_of_sample (CStr "9.9.9.9")
  = (inr (FVal 48.85%Q, FVal 2.35%Q), [ipinfo_url Kratos27.IPINFO_TOKEN "9.9.9.9"]).
Proof. reflexivity. Qed.

Example geolocate_malformed_loc :
  Kratos27.real_geolocate
    (fun _ => Body (Some (JObj [("loc", JStr "48.85;2.35")])))
    float_of_sample (CStr "9.9.9.9")
  = (inr unlocated, [ipinfo_url Kratos27.IPINFO_TOKEN "9.9.9.9"]).
Proof. reflexivity. Qed.

Example geolocate_missing_value :
  (Kratos27.real_geolocate unreachable float_of_sample NaN).1 = inr unlocated.
Proof. reflexivity. Qed.

(** The demo table of Kratos20 has no rule for private addresses: it gives
    two of them made-up coordinates. *)
Example kratos20_places_private_address :
  Kratos20Geo.simple_geolocate (CStr "10.0.0.1") = (FVal 38.0%Q, FVal (-97.0)%Q).
Proof. reflexivity. Qed.

(** ** Map layers *)

Lemma unlocated_is_not_located : ¬ located unlocated.
Proof. intros [H _]. discriminate H. Qed.

(** The marker loop (the same in Kratos27 and Kratos28) draws located
    alerts only. *)
Lemma markers_are_located (visible : list Alert) (m : CircleMarker) :
  m ∈ markers visible → located (location m).
Proof.
  unfold markers. intros Hm.
  apply list_elem_of_fmap in Hm as (a & -> & Ha).
  apply list_elem_of_filter in Ha as [Hne _].
  apply andb_true_iff in Hne. exact Hne.
Qed.

(** The heat layer of Kratos27 takes located points only. *)
Lemma kratos27_heat_points_are_located (visible : list Alert) (p : coords) :
  p ∈ Kratos27Map.heat_points visible → located p.
Proof.
  unfold Kratos27Map.heat_points. intros Hp.
  apply list_elem_of_fmap in Hp as (a & -> & Ha).
  apply list_elem_of_filter in Ha as [Hne _].
  apply andb_true_iff in Hne. exact Hne.
Qed.

(** The heat layer of Kratos28 takes every point that is not NaN, the
    sentinel included. *)
Lemma kratos28_heat_points_keep_unlocated (visible : list Alert) (a : Alert) :
  a ∈ visible → lat a = FVal 0%Q → lon a = FVal 0%Q →
  unlocated ∈ Kratos28Map.heat_points visible.
Proof.
  intros Ha Hlat Hlon. unfold Kratos28Map.heat_points, dropna.
  apply list_elem_of_filter. split; [reflexivity|].
  apply list_elem_of_fmap. exists a. split; [|done].
  unfold location_of. by rewrite Hlat, Hlon.
Qed.

(** C7, on Kratos28: a flagged row from the private address 10.0.0.1 is
    enriched with the sentinel (0,0), is visible in the first hour, gets no
    marker, and still puts the point (0,0) on the heat layer. The heat layer
    of Kratos27 leaves it out. *)
Theorem kratos28_heat_layer_takes_unlocated_alert :
  Kratos28.enrich unreachable float_of_sample [private_source_row]
    = Go [unlocated_alert] ∧
  visible_alerts 0 0 [unlocated_alert] = [unlocated_alert] ∧
  location_of unlocated_alert = unlocated ∧
  markers [unlocated_alert] = [] ∧
  Kratos28Map.heat_points [unlocated_alert] = [unlocated] ∧
  Kratos27Map.heat_points [unlocated_alert] = [].
Proof. split_and!; reflexivity. Qed.

(** ** Record validator *)

Lemma required_cols_spec (c : string) :
  c ∈ required_cols ↔
    c ∈ ["timestamp"; "source_ip"; "dest_ip"; "bytes_sent"; "failed_logins"].
Proof. unfold required_cols. set_unfold. tauto. Qed.

Lemma ensure_required_columns_passes (frame : DataFrame) :
  (∀ c, c ∈ required_cols → c ∈ columns frame) →
  ensure_required_columns frame = Go frame.
Proof.
  intros Hall. unfold ensure_required_columns.
  case_decide as Hsub; [reflexivity|].
  destruct Hsub. intros c Hc. apply elem_of_list_to_set. by apply Hall.
Qed.

Lemma ensure_required_columns_rejects (frame : DataFrame) :
  ensure_required_columns frame = Stopped schema_message ↔
    ∃ c, c ∈ required_cols ∧ c ∉ columns frame.
Proof.
  unfold ensure_required_columns. case_decide as Hsub; split.
  - discriminate.
  - intros (c & Hc & Hmiss). destruct Hmiss.
    apply (elem_of_list_to_set (C := gset string)). by apply Hsub.
  - intros _.
    destruct (decide (Forall (fun c => c ∈ columns frame)
                        ["timestamp"; "source_ip"; "dest_ip"; "bytes_sent"; "failed_logins"]))
      as [Hall|Hsome].
    + destruct Hsub. intros c Hc. apply elem_of_list_to_set.
      rewrite Forall_forall in Hall. apply Hall. by apply required_cols_spec.
    + apply not_Forall_Exists in Hsome; [|intros c; apply _].
      apply Exists_exists in Hsome as (c & Hc & Hmiss).
      exists c. split; [by apply required_cols_spec | done].
  - reflexivity.
Qed.

(** C8. Validation rejects the batch exactly when one of the five required
    columns is absent, and a rejected batch stops the run there, whatever
    the parsers, the scorer and the lookup service would do: nothing is
    scored, classified or enriched. When the five columns are there, the
    batch goes on as it is, extra columns included. *)
Theorem validation_rejects_iff_column_missing (frame : DataFrame) :
  (ensure_required_columns frame = Stopped schema_message ↔
     ∃ c, c ∈ ["timestamp"; "source_ip"; "dest_ip"; "bytes_sent"; "failed_logins"] ∧
          c ∉ columns frame) ∧
  (ensure_required_columns frame = Go frame ↔
     ∀ c, c ∈ ["timestamp"; "source_ip"; "dest_ip"; "bytes_sent"; "failed_logins"] →
          c ∈ columns frame) ∧
  (∀ parse_number to_datetime fit_predict requests_get py_float st_slider hour_pos drag,
     ensure_required_columns frame = Stopped schema_message →
     Kratos28.run parse_number to_datetime fit_predict requests_get py_float st_slider
                  frame hour_pos drag
     = Stopped schema_message).
Proof.
  split_and!.
  - rewrite ensure_required_columns_rejects.
    split; intros (c & Hc & Hmiss); exists c; (split; [by apply required_cols_spec | done]).
  - split.
    + intros Hgo c Hc. destruct (decide (c ∈ columns frame)) as [|Hmiss]; [done|].
      assert (Hstop : ensure_required_columns frame = Stopped schema_message).
      { apply ensure_required_columns_rejects. exists c.
        split; [by apply required_cols_spec | done]. }
      rewrite Hstop in Hgo. discriminate.
    + intros Hall. apply ensure_required_columns_passes.
      intros c Hc. apply Hall. by apply required_cols_spec.
  - intros pn td fp rg pf sl hour_pos drag Hstop.
    unfold Kratos28.run. rewrite Hstop. reflexivity.
Qed.

Lemma validation_rejects_iff_column_missing_witness :
  Kratos28.run no_number no_timestamp all_inliers unreachable float_of_sample
               sample_slider frame_without_failed_logins 0 None
    = Stopped schema_message ∧
  ensure_required_columns frame_with_extra_column = Go frame_with_extra_column.
Proof.
  split.
  - destruct (validation_rejects_iff_column_missing frame_without_failed_logins)
      as (Hrejects & _ & Hrun).
    apply Hrun. apply Hrejects. exists "failed_logins". split.
    + set_unfold. tauto.
    + set_unfold. intros H. decompose [or] H; (discriminate || contradiction).
  - destruct (validation_rejects_iff_column_missing frame_with_extra_column)
      as (_ & Hpasses & _).
    apply Hpasses. intros c Hc. set_unfold. tauto.
Defined.

(** ** Scorer and enrichment on small batches *)

(** X10. No script tests the size of the batch before [fit_predict]: the
    labels of a one-row batch are the scorer's. When the scorer flags no row
    of a batch that passed validation and normalisation, Kratos28 does not
    get to the map: line 135 raises ValueError. *)
Lemma unflagged_batch_crashes_enrichment
    (parse_number : string -> option number) (to_datetime : cell -> option Z)
    (fit_predict : list (Z * Z) -> list Z)
    (requests_get : string -> reply) (py_float : string -> option pyfloat)
    (st_slider : Z -> Z -> Z -> option Z -> script Z)
    (frame : DataFrame) (rows : list (Row Z)) (hour_pos : Z) (drag : option Z) :
  ensure_required_columns frame = Go frame →
  normalize parse_number to_datetime frame = Go rows →
  outliers (add_scores fit_predict rows) = [] →
  Kratos28.run parse_number to_datetime fit_predict requests_get py_float st_slider
               frame hour_pos drag
  = Crashed ValueError.
Proof.
  intros Hcols Hrows Hnone. unfold Kratos28.run.
  rewrite Hcols. simpl. rewrite Hrows. simpl. rewrite Hnone. reflexivity.
Qed.

(** * Further properties of the scripts *)

(** ** Timeline: the hour windows cover the log *)

Lemma foldr_min_le (t0 : Z) (ts : list Z) (x : Z) :
  x ∈ t0 :: ts → foldr Z.min t0 ts <= x.
Proof.
  induction ts as [|t ts IH]; simpl.
  - intros Hx. apply list_elem_of_singleton in Hx. lia.
  - rewrite !elem_of_cons. intros [->|[->|Hx]].
    + assert (foldr Z.min t0 ts <= t0) by (apply IH; left). lia.
    + lia.
    + assert (foldr Z.min t0 ts <= x) by (apply IH; by right). lia.
Qed.

Lemma foldr_max_ge (t0 : Z) (ts : list Z) (x : Z) :
  x ∈ t0 :: ts → x <= foldr Z.max t0 ts.
Proof.
  induction ts as [|t ts IH]; simpl.
  - intros Hx. apply list_elem_of_singleton in Hx. lia.
  - rewrite !elem_of_cons. intros [->|[->|Hx]].
    + assert (t0 <= foldr Z.max t0 ts) by (apply IH; left). lia.
    + lia.
    + assert (x <= foldr Z.max t0 ts) by (apply IH; by right). lia.
Qed.

(** [min()] and [max()] of the timestamp column bound every timestamp. *)
Lemma ts_min_max_bound {N} (logs : list (Row N)) (r : Row N) (t : Z) :
  r ∈ logs → timestamp r = Some t →
  ∃ lo hi, ts_min logs = Some lo ∧ ts_max logs = Some hi ∧ lo <= t <= hi.
Proof.
  intros Hr Ht.
  assert (Hin : t ∈ omap timestamp logs) by (apply list_elem_of_omap; eauto).
  unfold ts_min, ts_max. destruct (omap timestamp logs) as [|t0 ts].
  - by apply elem_of_nil in Hin.
  - eexists _, _. split_and!; [reflexivity | reflexivity | |].
    + by apply foldr_min_le.
    + by apply foldr_max_ge.
Qed.

Lemma floor_H_le (t : Z) : floor_H t <= t.
Proof.
  unfold floor_H. pose proof (Z.mul_div_le t HOUR). unfold HOUR in *. lia.
Qed.

Lemma le_ceil_H (t : Z) : t <= ceil_H t.
Proof.
  unfold ceil_H. pose proof (Z.mul_div_le (- t) HOUR). unfold HOUR in *. lia.
Qed.

(** The window of position [pos] holds [t] exactly when [pos] is the number
    of whole hours from [t_min] to [t]. *)
Lemma in_window_iff_hour (t_min t pos : Z) :
  in_window (current_start t_min pos) (current_end t_min pos) (Some t) ↔
    pos = (t - t_min) `div` HOUR.
Proof.
  unfold in_window, current_end, current_start.
  assert (HH : 0 < HOUR) by (unfold HOUR; lia).
  pose proof (Z.div_mod (t - t_min) HOUR) as Hdm.
  pose proof (Z.mod_pos_bound (t - t_min) HOUR HH) as Hmod.
  generalize dependent HOUR. intros H HH Hdm Hmod.
  split.
  - intros [Hlo Hhi]. apply (Z.div_unique _ _ _ (t - t_min - pos * H)); lia.
  - intros ->. nia.
Qed.

(** X1. Every alert that has a timestamp is visible at exactly one position
    of the hour slider of Kratos28, and that position lies between 0 and
    total_hours, the ends of the slider. *)
Theorem every_alert_has_its_hour
    (logs : list ScoredRow) (alerts : list Alert) (a : Alert) (t : Z) :
  a ∈ alerts →
  alert_row a ∈ logs →
  timestamp a = Some t →
  ∃ lo hi,
    ts_min (event <$> logs) = Some lo ∧
    ts_max (event <$> logs) = Some hi ∧
    ∃ pos,
      0 <= pos <= total_hours (floor_H lo) (ceil_H hi) ∧
      a ∈ visible_alerts (floor_H lo) pos alerts ∧
      ∀ pos', a ∈ visible_alerts (floor_H lo) pos' alerts → pos' = pos.
Proof.
  intros Ha Hrow Ht.
  assert (Hev : event (alert_row a) ∈ event <$> logs)
    by (by apply list_elem_of_fmap_2).
  destruct (ts_min_max_bound _ _ t Hev Ht) as (lo & hi & Hlo & Hhi & Hb).
  exists lo, hi. split_and!; [done | done |].
  exists ((t - floor_H lo) `div` HOUR).
  assert (HH : 0 < HOUR) by (unfold HOUR; lia).
  pose proof (floor_H_le lo). pose proof (le_ceil_H hi).
  split_and!.
  - apply Z.div_pos; lia.
  - unfold total_hours. apply Z.div_le_mono; lia.
  - unfold visible_alerts. apply list_elem_of_filter. split; [|done].
    rewrite Ht. by apply in_window_iff_hour.
  - intros pos' Hv. unfold visible_alerts in Hv.
    apply list_elem_of_filter in Hv as [Hw _].
    rewrite Ht in Hw. by apply in_window_iff_hour.
Qed.

Lemma every_alert_has_its_hour_witness :
  ∃ lo hi,
    ts_min (event <$> [alert_row (sample_alert HOUR 1 1)]) = Some lo ∧
    ts_max (event <$> [alert_row (sample_alert HOUR 1 1)]) = Some hi ∧
    ∃ pos,
      0 <= pos <= total_hours (floor_H lo) (ceil_H hi) ∧
      sample_alert HOUR 1 1 ∈ visible_alerts (floor_H lo) pos [sample_alert HOUR 1 1] ∧
      ∀ pos', sample_alert HOUR 1 1 ∈ visible_alerts (floor_H lo) pos' [sample_alert HOUR 1 1] →
              pos' = pos.
Proof.
  apply (every_alert_has_its_hour
           [alert_row (sample_alert HOUR 1 1)] [sample_alert HOUR 1 1]
           (sample_alert HOUR 1 1) HOUR); [left | left | reflexivity].
Defined.

(** ** Kratos16: the cumulative view *)

Lemma filtered_alerts_spec (cutoff : Z) (alerts : list Alert) (a : Alert) :
  a ∈ MinutePlayback.filtered_alerts cutoff alerts ↔
    a ∈ alerts ∧ ∃ t, timestamp a = Some t ∧ t <= cutoff.
Proof.
  unfold MinutePlayback.filtered_alerts. rewrite list_elem_of_filter.
  unfold MinutePlayback.up_to. destruct (timestamp a) as [t|]; split.
  - intros [Hle Ha]. eauto.
  - intros [Ha (t' & [= <-] & Hle)]. done.
  - intros [[] _].
  - intros [_ (t & [=] & _)].
Qed.

(** X2. The view of Kratos16 only grows with the playback position, and at
    the last position, total_minutes, it holds every alert that has a
    timestamp up to the latest one of the log. *)
Theorem kratos16_view_grows_to_everything (t_min t_max : Z) (alerts : list Alert) :
  (∀ (p p' : Z) (a : Alert),
     p <= p' →
     a ∈ MinutePlayback.filtered_alerts (MinutePlayback.current_cutoff t_min p) alerts →
     a ∈ MinutePlayback.filtered_alerts (MinutePlayback.current_cutoff t_min p') alerts) ∧
  (∀ (a : Alert) (t : Z),
     a ∈ alerts → timestamp a = Some t → t <= t_max →
     a ∈ MinutePlayback.filtered_alerts
           (MinutePlayback.current_cutoff t_min (MinutePlayback.total_minutes t_min t_max))
           alerts).
Proof.
  assert (HM : 0 < MINUTE) by (unfold MINUTE; lia).
  split.
  - intros p p' a Hp. rewrite !filtered_alerts_spec.
    intros [Ha (t & Ht & Hle)]. split; [done|]. exists t. split; [done|].
    unfold MinutePlayback.current_cutoff in *. nia.
  - intros a t Ha Ht Hle. apply filtered_alerts_spec. split; [done|].
    exists t. split; [done|].
    unfold MinutePlayback.current_cutoff, MinutePlayback.total_minutes.
    pose proof (Z.div_mod (t_max - t_min) MINUTE) as Hdm.
    pose proof (Z.mod_pos_bound (t_max - t_min) MINUTE HM) as Hmod.
    generalize dependent MINUTE. intros M HM Hdm Hmod.
    case_bool_decide; nia.
Qed.

Lemma kratos16_view_grows_to_everything_witness :
  sample_alert (90 * MINUTE) 1 1 ∈
    MinutePlayback.filtered_alerts
      (MinutePlayback.current_cutoff 0 (MinutePlayback.total_minutes 0 (90 * MINUTE)))
      [sample_alert 0 1 1; sample_alert (90 * MINUTE) 1 1].
Proof.
  destruct (kratos16_view_grows_to_everything 0 (90 * MINUTE)
              [sample_alert 0 1 1; sample_alert (90 * MINUTE) 1 1]) as [_ Hlast].
  apply (Hlast _ (90 * MINUTE)); [set_solver | reflexivity | lia].
Defined.

(** ** Dashboard: the severity filter *)

Lemma df_view_only_length (visible : list Alert) :
  (length (df_view (Only Low) visible)
   + length (df_view (Only Medium) visible)
   + length (df_view (Only High) visible))%nat
  = length visible.
Proof.
  unfold df_view. induction visible as [|a rest IH]; [reflexivity|].
  rewrite !filter_cons. destruct (severity a) eqn:Hs;
    repeat case_decide; try congruence; simpl; lia.
Qed.

(** X6. The views of the three severities split the visible alerts: each
    holds exactly the visible alerts of its severity, in their order, their
    sizes add up to the number of visible alerts, and "All" is the whole
    table. *)
Theorem severity_filter_splits_the_view (visible : list Alert) :
  (length (df_view (Only Low) visible)
   + length (df_view (Only Medium) visible)
   + length (df_view (Only High) visible))%nat
  = length visible ∧
  (∀ s a, a ∈ df_view (Only s) visible ↔ a ∈ visible ∧ severity a = s) ∧
  (∀ choice, df_view choice visible `sublist_of` visible) ∧
  df_view AllSeverities visible = visible.
Proof.
  split_and!.
  - apply df_view_only_length.
  - intros s a. unfold df_view. rewrite list_elem_of_filter. tauto.
  - intros [|s]; simpl; [reflexivity | apply sublist_filter].
  - reflexivity.
Qed.

(** ** Feature normaliser: when it stops, what it keeps *)

#[local] Instance ts_le_total {N} : Total (@ts_le N).
Proof.
  intros r1 r2. unfold ts_le.
  destruct (timestamp r1), (timestamp r2); auto. lia.
Qed.

#[local] Instance ts_le_trans {N} : Transitive (@ts_le N).
Proof.
  intros r1 r2 r3. unfold ts_le.
  destruct (timestamp r1), (timestamp r2), (timestamp r3); auto; try lia; done.
Qed.

(** The order of the rows is that of their timestamps. *)
Lemma sorted_by_timestamp {N M} (l1 : list (Row N)) (l2 : list (Row M)) :
  Forall2 (fun r1 r2 => timestamp r2 = timestamp r1) l1 l2 →
  StronglySorted ts_le l1 → StronglySorted ts_le l2.
Proof.
  induction 1 as [|r1 r2 l1 l2 Hts Hrest IH]; [constructor|].
  intros Hsorted. apply StronglySorted_inv in Hsorted as [Hs Hall].
  constructor; [by apply IH|].
  clear IH Hs. induction Hrest as [|x y l1 l2 Hxy Hrest IH]; [constructor|].
  apply Forall_cons in Hall as [Hx Hall]. constructor; [|by apply IH].
  unfold ts_le in *. by rewrite Hts, Hxy.
Qed.

Section NormalizerOutcome.
Variable parse_number : string -> option number.
Variable to_datetime : cell -> option Z.

(** X7. The normaliser stops the run, with the timestamp message, exactly
    when no record has a timestamp that parses (so also for a batch without
    records), and it has no other way to stop. It raises exactly when some
    timestamp parses and a cell of one of the two numeric columns reads as
    plus or minus infinity, and what it raises then is ValueError. *)
Theorem normalize_stops_iff_no_timestamp (frame : DataFrame) :
  (normalize parse_number to_datetime frame = Stopped timestamps_message ↔
     ∀ record, record ∈ records frame →
               to_datetime (at_col record "timestamp") = None) ∧
  (∀ msg, normalize parse_number to_datetime frame = Stopped msg →
          msg = timestamps_message) ∧
  (∀ e, normalize parse_number to_datetime frame = Crashed e ↔
        e = ValueError ∧
        (∃ record, record ∈ records frame ∧
                   to_datetime (at_col record "timestamp") ≠ None) ∧
        (holds_infinity parse_number (column frame "bytes_sent") ∨
         holds_infinity parse_number (column frame "failed_logins"))).
Proof.
  split_and!.
  - rewrite normalize_Stopped. tauto.
  - intros msg Hstop. by apply normalize_Stopped in Hstop as [-> _].
  - intros e. apply normalize_Crashed.
Qed.


End NormalizerOutcome.


(** ** The run of Kratos28 as a whole *)

Lemma uncaught_Go {A} (m : attempt A) (a : A) : uncaught m = Go a → m.1 = inr a.
Proof. unfold uncaught. destruct (m.1); [discriminate|]. by intros [= ->]. Qed.

(** The marker loop ends well when no marker it asks for has a NaN
    coordinate; the layer then holds the markers asked for. *)
Lemma draw_markers_Go (visible : list Alert) (layer : list CircleMarker) :
  draw_markers visible = Go layer →
  layer = markers visible ∧
  ∀ m, m ∈ layer → isna (location m).1 = false ∧ isna (location m).2 = false.
Proof.
  unfold draw_markers. intros Hgo. apply for_each_Go in Hgo.
  induction Hgo as [|m m' asked layer Hm _ IH].
  - split; [done|]. intros m Hm. by apply elem_of_nil in Hm.
  - destruct IH as [-> IH]. unfold circle_marker in Hm.
    destruct (isna (location m).1 || isna (location m).2) eqn:Hna; [discriminate|].
    injection Hm as <-. split; [done|].
    intros m' Hm'. apply elem_of_cons in Hm' as [->|Hm']; [|by apply IH].
    by apply orb_false_iff in Hna.
Qed.

Section Kratos28Run.
Variable parse_number : string -> option number.
Variable to_datetime : cell -> option Z.
Variable fit_predict : list (Z * Z) -> list Z.
Variable requests_get : string -> reply.
Variable py_float : string -> option pyfloat.
Variable st_slider : Z -> Z -> Z -> option Z -> script Z.

Lemma enrich_Go (flagged : list ScoredRow) (alerts : list Alert) :
  Kratos28.enrich requests_get py_float flagged = Go alerts →
  flagged ≠ [] ∧
  Forall2 (Kratos28Alerts.enriched requests_get py_float) flagged alerts.
Proof.
  unfold Kratos28.enrich. destruct flagged as [|r rest]; [discriminate|].
  intros Hgo. split; [done|].
  apply for_each_Go in Hgo. eapply Forall2_impl; [exact Hgo|].
  intros r' a. simpl.
  destruct (uncaught _) as [c| |] eqn:Hc; simpl; [|discriminate..].
  intros [= <-]. apply uncaught_Go in Hc. unfold Kratos28Alerts.enriched. simpl.
  split_and!; [done | done |]. rewrite Hc. by destruct c.
Qed.

Lemma enriched_rows (flagged : list ScoredRow) (alerts : list Alert) :
  Forall2 (Kratos28Alerts.enriched requests_get py_float) flagged alerts →
  alert_row <$> alerts = flagged.
Proof.
  induction 1 as [|r a flagged alerts [Hrow _] _ IH]; [done|].
  by rewrite fmap_cons, Hrow, IH.
Qed.


End Kratos28Run.


(** A lookup that answers with the text "nan" gives a visible alert two NaN
    coordinates: the test of the marker loop lets it through and folium
    raises. *)
Example nan_coordinates_raise :
  Kratos28.run no_number sample_datetime all_outliers
    (fun _ => Body (Some (JObj [("loc", JStr "nan,nan")])))
    (fun _ => Some FNaN) sample_slider frame_with_extra_column 0 None
  = Crashed ValueError.
Proof. vm_compute. reflexivity. Qed.

Lemma unflagged_batch_crashes_enrichment_witness :
  Kratos28.run no_number sample_datetime all_inliers unreachable float_of_sample
               sample_slider frame_with_extra_column 0 None
  = Crashed ValueError.
Proof.
  apply (unflagged_batch_crashes_enrichment no_number sample_datetime all_inliers unreachable
           float_of_sample sample_slider frame_with_extra_column
           [mkRow (Some new_year) (CStr "8.8.8.8") (CStr "10.0.0.100") 120 0
                  {[ "user_agent" := CStr "curl" ]}]);
    vm_compute; reflexivity.
Defined.

(** ** Geo lookup: the requests it makes, the replies it accepts *)

Lemma and_then_log {A B} (m : attempt A) (k : A -> attempt B) (l : list string) :
  m.2 = l → (∀ a, (k a).2 = []) → (and_then m k).2 = l.
Proof.
  intros <- Hk. unfold and_then. destruct (m.1) as [e|a]; simpl; [done|].
  rewrite Hk. apply app_nil_r.
Qed.

Lemma try_except_log {A} (m : attempt A) (d : A) :
  (try_except m (fun _ => pure d)).2 = m.2.
Proof. unfold try_except. destruct (m.1); simpl; [apply app_nil_r | done]. Qed.

Lemma unpack_floats_log (py_float : string -> option pyfloat) (parts : list string) :
  (unpack_floats py_float parts).2 = [].
Proof.
  unfold unpack_floats. destruct parts as [|a [|b [|c rest]]]; try done.
  by destruct (py_float a), (py_float b).
Qed.

Lemma json_contains_log (key : string) (data : json) : (json_contains key data).2 = [].
Proof. by destruct data. Qed.

Lemma json_getitem_log (data : json) (key : string) : (json_getitem data key).2 = [].
Proof.
  destruct data; try done. simpl. by destruct (list_find _ _) as [[? ?]|].
Qed.

Lemma json_split_log (v : json) : (json_split v).2 = [].
Proof. by destruct v. Qed.

(** The live lookup asks the service once, whatever comes back. *)
Lemma live_lookup_log
    (requests_get : string -> reply) (py_float : string -> option pyfloat)
    (token s : string) :
  (live_lookup requests_get py_float token s).2 = [ipinfo_url token s].
Proof.
  unfold live_lookup. apply and_then_log.
  - unfold http_get. by destruct (requests_get _).
  - intros body. apply and_then_log; [by destruct body|].
    intros data. apply and_then_log; [apply json_contains_log|].
    intros [|]; [|done].
    apply and_then_log; [apply json_getitem_log|].
    intros loc. apply and_then_log; [apply json_split_log|].
    intros parts. apply unpack_floats_log.
Qed.

(** X11. A lookup of Kratos27 asks the service at most once, and only for a
    text identifier that has no private prefix and is not in the static
    table; the address asked for is then the ipinfo.io page of that
    identifier. An identifier of the static table gets the coordinates of
    the table without any request. *)
Theorem lookup_asks_at_most_once
    (requests_get : string -> reply) (py_float : string -> option pyfloat)
    (ip : cell) :
  ((Kratos27.real_geolocate requests_get py_float ip).2 = [] ∨
   ∃ s, ip = CStr s ∧
        existsb (fun p => String.prefix p s) private_prefixes = false ∧
        Kratos27.STATIC_IP_MAP !! s = None ∧
        (Kratos27.real_geolocate requests_get py_float ip).2
          = [ipinfo_url Kratos27.IPINFO_TOKEN s]) ∧
  (∀ s la lo,
     ip = CStr s →
     existsb (fun p => String.prefix p s) private_prefixes = false →
     Kratos27.STATIC_IP_MAP !! s = Some (la, lo) →
     Kratos27.real_geolocate requests_get py_float ip = (inr (FVal la, FVal lo), [])).
Proof.
  split.
  - destruct ip as [z|x|s]; [by left | by left |].
    destruct (existsb (fun p => String.prefix p s) private_prefixes) eqn:Hp.
    { left. by rewrite real_geolocate_private. }
    destruct (Kratos27.STATIC_IP_MAP !! s) as [[la lo]|] eqn:Hs.
    + left. unfold Kratos27.real_geolocate, Kratos27.lookup, startswith.
      rewrite and_then_pure, Hp. simpl ip_text. by rewrite Hs.
    + right. exists s. split_and!; try done.
      unfold Kratos27.real_geolocate. rewrite try_except_log.
      rewrite (lookup_goes_live _ _ _ Hp Hs). simpl. apply live_lookup_log.
  - intros s la lo -> Hp Hs.
    unfold Kratos27.real_geolocate, Kratos27.lookup, startswith.
    rewrite and_then_pure, Hp. simpl ip_text. by rewrite Hs.
Qed.

Lemma lookup_asks_at_most_once_witness :
  Kratos27.real_geolocate unreachable float_of_sample (CStr "8.8.8.8")
  = (inr (FVal 37.3861%Q, FVal (-122.0839)%Q), []).
Proof.
  destruct (lookup_asks_at_most_once unreachable float_of_sample (CStr "8.8.8.8"))
    as [_ Hstatic].
  apply (Hstatic "8.8.8.8"); reflexivity.
Defined.

Lemma split_on_free (sep : Ascii.ascii) (s : string) :
  free_of sep s = true → split_on sep s = [s].
Proof.
  induction s as [|c rest IH]; simpl; [done|].
  rewrite andb_true_iff, negb_true_iff. intros [-> Hrest]. by rewrite IH.
Qed.

(** Text with one separator splits in its two sides. *)
Lemma split_on_pair (sep : Ascii.ascii) (a b : string) :
  free_of sep a = true → free_of sep b = true →
  split_on sep (a +:+ String sep b) = [a; b].
Proof.
  intros Ha Hb. induction a as [|c rest IH]; simpl in *.
  - rewrite Ascii.eqb_refl. by rewrite split_on_free.
  - apply andb_true_iff in Ha as [Hc Hrest]. apply negb_true_iff in Hc.
    rewrite Hc. by rewrite IH.
Qed.

Lemma getitem_contains (fields : list (string * json)) (key : string) (v : json) :
  json_getitem (JObj fields) key = pure v →
  json_contains key (JObj fields) = pure true.
Proof.
  simpl. destruct (list_find _ _) as [[i kv]|] eqn:Hfind; [|discriminate].
  intros _. apply list_find_Some in Hfind as (Hi & Hkey & _).
  unfold pure. do 2 f_equal. apply existsb_exists. exists kv. split.
  - apply list_elem_of_In, list_elem_of_lookup. eauto.
  - by apply String.eqb_eq.
Qed.

(** X12. When the service answers with an object whose "loc" field is the
    text of two numbers that [float] reads, separated by one comma, the
    lookup of Kratos27 returns exactly these two numbers as latitude and
    longitude (for an identifier that is looked up live). *)
Theorem lookup_returns_the_loc_of_the_reply
    (requests_get : string -> reply) (py_float : string -> option pyfloat)
    (s : string) (fields : list (string * json)) (a b : string) (x y : pyfloat) :
  existsb (fun p => String.prefix p s) private_prefixes = false →
  Kratos27.STATIC_IP_MAP !! s = None →
  requests_get (ipinfo_url Kratos27.IPINFO_TOKEN s) = Body (Some (JObj fields)) →
  json_getitem (JObj fields) "loc" = pure (JStr (a +:+ "," +:+ b)) →
  free_of "," a = true →
  free_of "," b = true →
  py_float a = Some x →
  py_float b = Some y →
  Kratos27.real_geolocate requests_get py_float (CStr s)
  = (inr (x, y), [ipinfo_url Kratos27.IPINFO_TOKEN s]).
Proof.
  intros Hp Hs Hreply Hloc Ha Hb Hx Hy.
  unfold Kratos27.real_geolocate. rewrite (lookup_goes_live _ _ _ Hp Hs).
  assert (Hlive : live_lookup requests_get py_float Kratos27.IPINFO_TOKEN s
                  = (inr (x, y), [ipinfo_url Kratos27.IPINFO_TOKEN s])).
  { unfold live_lookup, http_get. rewrite Hreply.
    unfold and_then at 1. cbn [fst snd].
    unfold resp_json. rewrite and_then_pure.
    rewrite (getitem_contains _ _ _ Hloc), and_then_pure.
    rewrite Hloc, and_then_pure.
    unfold json_split. rewrite and_then_pure.
    change (a +:+ "," +:+ b) with (a +:+ String "," b).
    rewrite split_on_pair by done.
    unfold unpack_floats. rewrite Hx, Hy. reflexivity. }
  rewrite Hlive. reflexivity.
Qed.

Lemma lookup_returns_the_loc_of_the_reply_witness :
  Kratos27.real_geolocate
    (fun _ => Body (Some (JObj [("ip", JStr "9.9.9.9"); ("loc", JStr "48.85,2.35")])))
    float_of_sample (CStr "9.9.9.9")
  = (inr (FVal 48.85%Q, FVal 2.35%Q), [ipinfo_url Kratos27.IPINFO_TOKEN "9.9.9.9"]).
Proof.
  apply (lookup_returns_the_loc_of_the_reply _ float_of_sample "9.9.9.9"
           [("ip", JStr "9.9.9.9"); ("loc", JStr "48.85,2.35")] "48.85" "2.35");
    reflexivity.
Defined.

(** ** Threat news *)

Section NewsFacts.
Import Kratos28News.
Variable requests_get : string -> reply.

Lemma dict_get_log (data : json) (key : string) (default : json) :
  (dict_get data key default).2 = [].
Proof.
  destruct data; try done. simpl. by destruct (list_find _ _) as [[? ?]|].
Qed.

Lemma fetch_log (query : string) (max_articles : Z) :
  (fetch requests_get query max_articles).2 = [news_url query max_articles].
Proof.
  unfold fetch. apply and_then_log.
  - unfold http_get. by destruct (requests_get _).
  - intros body. apply and_then_log; [by destruct body|].
    intros data. apply dict_get_log.
Qed.

Lemma fetch_value (query : string) (max_articles : Z) :
  (fetch requests_get query max_articles).1
  = match requests_get (news_url query max_articles) with
    | NoReply e => inl e
    | Body None => inl JSONDecodeError
    | Body (Some data) => (dict_get data "articles" (JArr [])).1
    end.
Proof.
  unfold fetch, http_get, and_then.
  destruct (requests_get _) as [e|[data|]]; simpl; [done| |done].
  by destruct (dict_get data "articles" (JArr [])).1.
Qed.

(** What [fetch_threat_news] returns and shows, from what the body of its
    [try] block does. *)
Lemma fetch_threat_news_value (query : string) (max_articles : Z) :
  (fetch_threat_news requests_get query max_articles).1
  = match (fetch requests_get query max_articles).1 with
    | inl e => inr (JArr [], [ErrorBox e])
    | inr articles => inr (articles, [])
    end.
Proof.
  unfold fetch_threat_news, try_except, and_then.
  by destruct (fetch requests_get query max_articles).1.
Qed.

Lemma fetch_threat_news_log (query : string) (max_articles : Z) :
  (fetch_threat_news requests_get query max_articles).2 = [news_url query max_articles].
Proof.
  unfold fetch_threat_news, try_except, and_then. rewrite <- fetch_log.
  destruct (fetch requests_get query max_articles).1; simpl; by rewrite !app_nil_r.
Qed.

(** X13. [fetch_threat_news] never raises and asks the news service exactly
    once. When the request raises, the body is not JSON, or the document is
    not an object, it shows the error in an error box and returns the empty
    list; for an object it shows nothing and returns the value of
    "articles", or the empty list when there is no such field. *)
Theorem fetch_threat_news_is_safe (query : string) (max_articles : Z) :
  (∃ v, (fetch_threat_news requests_get query max_articles).1 = inr v) ∧
  (fetch_threat_news requests_get query max_articles).2
    = [news_url query max_articles] ∧
  (∀ e, (fetch requests_get query max_articles).1 = inl e →
        (fetch_threat_news requests_get query max_articles).1
        = inr (JArr [], [ErrorBox e])) ∧
  (∀ e, requests_get (news_url query max_articles) = NoReply e →
        (fetch_threat_news requests_get query max_articles).1
        = inr (JArr [], [ErrorBox e])) ∧
  (requests_get (news_url query max_articles) = Body None →
   (fetch_threat_news requests_get query max_articles).1
   = inr (JArr [], [ErrorBox JSONDecodeError])) ∧
  (∀ data, requests_get (news_url query max_articles) = Body (Some data) →
           (∀ fields, data ≠ JObj fields) →
           (fetch_threat_news requests_get query max_articles).1
           = inr (JArr [], [ErrorBox AttributeError])) ∧
  (∀ fields, requests_get (news_url query max_articles) = Body (Some (JObj fields)) →
             (fetch_threat_news requests_get query max_articles).1
             = inr (match list_find (fun kv => kv.1 = "articles") fields with
                    | Some (_, kv) => kv.2
                    | None => JArr []
                    end, [])).
Proof.
  split_and!.
  - rewrite fetch_threat_news_value.
    destruct (fetch requests_get query max_articles).1; eauto.
  - apply fetch_threat_news_log.
  - intros e He. by rewrite fetch_threat_news_value, He.
  - intros e Hr. by rewrite fetch_threat_news_value, fetch_value, Hr.
  - intros Hr. by rewrite fetch_threat_news_value, fetch_value, Hr.
  - intros data Hr Hdata. rewrite fetch_threat_news_value, fetch_value, Hr.
    destruct data; try done. by destruct (Hdata fields).
  - intros fields Hr. rewrite fetch_threat_news_value, fetch_value, Hr. simpl.
    by destruct (list_find _ _) as [[? ?]|].
Qed.

Lemma render_articles_complete (articles : list json) :
  Forall complete articles →
  ∃ page, render_articles articles = (inr page, []) ∧
          (4 * length articles ≤ length page ≤ 5 * length articles)%nat.
Proof.
  induction 1 as [|article rest Hc _ IH]; simpl.
  - exists []. split; [done | simpl; lia].
  - destruct Hc as (title & source & name & published & Ht & Hs & Hn & Hp).
    destruct IH as (pages & -> & Hlen).
    unfold render_article. rewrite Ht, and_then_pure, Hs, and_then_pure.
    rewrite Hn, and_then_pure, Hp, and_then_pure.
    destruct article as [| | | | |fields]; try discriminate Ht.
    unfold dict_get.
    destruct (list_find (fun kv => kv.1 = "description") fields) as [[? ?]|];
      rewrite and_then_pure;
      (destruct (list_find (fun kv => kv.1 = "url") fields) as [[? [? url]]|];
       rewrite !and_then_pure);
      eexists; (split; [reflexivity|]); simpl; rewrite ?length_app;
      try destruct (truthy _); simpl; lia.
Qed.

(** X14. The news tab of Kratos28 starts with its header. Whenever the
    fetch fails, the error box of [fetch_threat_news] follows, and then the
    notice "No news available at the moment."; a list of articles that each
    have a title, a source with a name and a publication date is rendered
    with four or five widgets for each article, no error box; an article
    object without a title makes the tab raise KeyError. *)
Theorem news_tab_outcomes :
  (∀ e, (fetch requests_get "cyber attack" 5).1 = inl e →
        (tab5 requests_get).1
        = inr [Header "📰 Cybersecurity News Feed"; ErrorBox e;
               Info "No news available at the moment."]) ∧
  (∀ fields article rest,
     requests_get (news_url "cyber attack" 5) = Body (Some (JObj fields)) →
     dict_get (JObj fields) "articles" (JArr []) = pure (JArr (article :: rest)) →
     Forall complete (article :: rest) →
     ∃ page, (tab5 requests_get).1
             = inr (Header "📰 Cybersecurity News Feed" :: page) ∧
             (4 * length (article :: rest) ≤ length page
              ≤ 5 * length (article :: rest))%nat) ∧
  (∀ fields article rest,
     requests_get (news_url "cyber attack" 5) = Body (Some (JObj fields)) →
     dict_get (JObj fields) "articles" (JArr []) = pure (JArr (JObj article :: rest)) →
     list_find (fun kv => kv.1 = "title") article = None →
     (tab5 requests_get).1 = inl KeyError).
Proof.
  assert (Hvalue : ∀ fields v,
            requests_get (news_url "cyber attack" 5) = Body (Some (JObj fields)) →
            dict_get (JObj fields) "articles" (JArr []) = pure v →
            (tab5 requests_get).1
            = match (news_tab v).1 with
              | inl e => inl e
              | inr page => inr (Header "📰 Cybersecurity News Feed" :: page)
              end).
  { intros fields v Hr Hv. unfold tab5. unfold and_then at 1.
    rewrite fetch_threat_news_value, fetch_value, Hr, Hv. cbn [fst snd pure].
    unfold and_then. by destruct (news_tab v).1. }
  split_and!.
  - intros e He. unfold tab5. unfold and_then at 1.
    rewrite fetch_threat_news_value, He. reflexivity.
  - intros fields article rest Hr Hv Hall.
    rewrite (Hvalue _ _ Hr Hv).
    destruct (render_articles_complete _ Hall) as (page & Hpage & Hlen).
    exists page. split; [|done].
    unfold news_tab. cbn [truthy iterate]. rewrite and_then_pure. by rewrite Hpage.
  - intros fields article rest Hr Hv Htitle.
    rewrite (Hvalue _ _ Hr Hv).
    unfold news_tab. cbn [truthy iterate]. rewrite and_then_pure.
    cbn [render_articles]. unfold render_article at 1.
    cbn [json_getitem]. rewrite Htitle. reflexivity.
Qed.

End NewsFacts.

Lemma news_tab_outcomes_witness :
  (Kratos28News.tab5 unreachable).1
  = inr [Kratos28News.Header "📰 Cybersecurity News Feed";
         Kratos28News.ErrorBox RequestException;
         Kratos28News.Info "No news available at the moment."].
Proof.
  destruct (news_tab_outcomes unreachable) as [Hfail _].
  apply (Hfail RequestException). reflexivity.
Defined.

(** ** Kratos16: the coordinate columns *)

Lemma geolocate_ips_loop (series : list cell) (lats lons : list pyfloat) :
  foldl (fun acc ip =>
           let coord := Kratos16Geo.fallback ip in
           ((acc.1 ++ [coord.1])%list, (acc.2 ++ [coord.2])%list))
        (lats, lons) series
  = ((lats ++ ((fun ip => (Kratos16Geo.fallback ip).1) <$> series))%list,
     (lons ++ ((fun ip => (Kratos16Geo.fallback ip).2) <$> series))%list).
Proof.
  revert lats lons. induction series as [|ip rest IH]; intros lats lons; simpl.
  - by rewrite !app_nil_r.
  - rewrite IH. simpl. by rewrite <- !app_assoc.
Qed.



(** ** The two marker tests *)

Lemma drawn_is_not_skipped (a : Alert) :
  isna (lat a) = false → isna (lon a) = false →
  ne0 (lat a) && ne0 (lon a) = true → skipped a = false.
Proof.
  unfold skipped. intros -> ->. simpl.
  rewrite andb_true_iff. intros [Hlat _].
  destruct (lat a) as [| |x]; simpl in *; [done | done |].
  by apply negb_true_iff in Hlat as ->.
Qed.

(** X16. On alerts whose coordinates are numbers, every marker that the
    loop of Kratos27/28 draws is also drawn by the loop of Kratos16/20, but
    not the other way round: an alert with latitude 0 and another longitude
    (a place on the equator) gets its marker from Kratos16/20 and none from
    Kratos27/28. *)
Theorem marker_loops_compared (view : list Alert) :
  Forall (fun a : Alert => isna (lat a) = false ∧ isna (lon a) = false) view →
  markers view `sublist_of` markers_unless_skipped view ∧
  (∀ a : Alert,
     a ∈ view → eq0 (lat a) = true → ne0 (lon a) = true →
     mkMarker (location_of a) (severity_color (severity a))
       ∈ markers_unless_skipped view ∧
     markers [a] = []).
Proof.
  intros Hnum. split.
  - unfold markers, markers_unless_skipped. apply fmap_sublist.
    induction Hnum as [|a rest [Hla Hlo] _ IH]; [done|].
    rewrite !filter_cons.
    destruct (decide (ne0 (lat a) && ne0 (lon a) = true)) as [Hd|Hd].
    + rewrite decide_True by (by apply drawn_is_not_skipped).
      by apply sublist_skip.
    + case_decide; [by apply sublist_cons | done].
  - intros a Ha Hlat Hlon. split.
    + unfold markers_unless_skipped.
      apply (list_elem_of_fmap_2 (fun a => mkMarker (location_of a) (severity_color (severity a)))).
      apply list_elem_of_filter. split; [|done].
      rewrite Forall_forall in Hnum. destruct (Hnum a Ha) as [Hla Hlo].
      unfold skipped. rewrite Hla, Hlo, Hlat. simpl.
      destruct (lon a) as [| |y]; [done | done |]. simpl in *.
      by apply negb_true_iff in Hlon as ->.
    + unfold markers. rewrite filter_cons, decide_False; [done|].
      destruct (lat a) as [| |x]; [done | done |]. simpl in *. by rewrite Hlat.
Qed.

Lemma marker_loops_compared_witness :
  mkMarker (location_of (sample_alert 0 0 36.8)) (severity_color High)
    ∈ markers_unless_skipped [sample_alert 0 0 36.8] ∧
  markers [sample_alert 0 0 36.8] = [].
Proof.
  destruct (marker_loops_compared [sample_alert 0 0 36.8]) as [_ Hequator].
  - repeat constructor.
  - apply (Hequator (sample_alert 0 0 36.8)); [left | reflexivity | reflexivity].
Defined.

(** ** Response simulation *)

#[local] Instance more_logins_total : Total Kratos3Simulation.more_logins.
Proof. intros a b. unfold Kratos3Simulation.more_logins. lia. Qed.

#[local] Instance more_logins_trans : Transitive Kratos3Simulation.more_logins.
Proof. intros a b c. unfold Kratos3Simulation.more_logins. lia. Qed.

(** X17. The simulation of the script Kratos3 acts on the alerts with the
    most failed logins: for a slider value of at least 1, the candidates are
    alerts at or above the threshold, at most sample_rate of them and never
    more than the "Alerts targeted" figure of the preview, in descending
    order of failed logins, and no alert at or above the threshold that was
    left out has more failed logins than a candidate. The default that the
    script gives the "top N" slider lies between the two ends it gives it,
    1 and at most 50, for every number of alerts. *)
Theorem candidates_are_the_top
    (severity_threshold sample_rate : Z) (alerts : list ScoredRow) :
  1 <= sample_rate →
  Z.of_nat (length (Kratos3Simulation.candidates severity_threshold sample_rate alerts))
    <= Kratos3Simulation.alerts_targeted sample_rate alerts ∧
  (∀ a : ScoredRow,
     a ∈ Kratos3Simulation.candidates severity_threshold sample_rate alerts →
     a ∈ alerts ∧ severity_threshold <= failed_logins a) ∧
  StronglySorted Kratos3Simulation.more_logins
    (Kratos3Simulation.candidates severity_threshold sample_rate alerts) ∧
  (∃ left_out : list ScoredRow,
     (Kratos3Simulation.candidates severity_threshold sample_rate alerts ++ left_out)%list
       ≡ₚ filter (fun a : ScoredRow => severity_threshold <= failed_logins a) alerts ∧
     ∀ a b : ScoredRow,
       a ∈ Kratos3Simulation.candidates severity_threshold sample_rate alerts →
       b ∈ left_out → failed_logins b <= failed_logins a) ∧
  1 <= Kratos3Simulation.sample_rate_default (Z.of_nat (length alerts))
    <= Kratos3Simulation.sample_rate_max (Z.of_nat (length alerts)) ∧
  Kratos3Simulation.sample_rate_max (Z.of_nat (length alerts)) <= 50.
Proof.
  intros Hrate. unfold Kratos3Simulation.candidates, Kratos3Simulation.head.
  rewrite bool_decide_eq_true_2 by lia.
  set (meeting := filter (fun a : ScoredRow => severity_threshold <= failed_logins a) alerts).
  set (sorted := merge_sort Kratos3Simulation.more_logins meeting).
  assert (Hperm : sorted ≡ₚ meeting) by apply merge_sort_Permutation.
  assert (Hsorted : StronglySorted Kratos3Simulation.more_logins sorted)
    by (apply StronglySorted_merge_sort; apply _).
  rewrite <- (take_drop (Z.to_nat sample_rate) sorted) in Hsorted, Hperm.
  split_and!.
  - unfold Kratos3Simulation.alerts_targeted. rewrite length_take.
    assert (length sorted ≤ length alerts)%nat.
    { subst sorted. rewrite merge_sort_Permutation. apply length_filter. }
    lia.
  - intros a Ha.
    assert (Hm : a ∈ meeting).
    { rewrite <- Hperm. apply elem_of_app. by left. }
    apply list_elem_of_filter in Hm. tauto.
  - by apply StronglySorted_app_1_l in Hsorted.
  - exists (drop (Z.to_nat sample_rate) sorted). split; [done|].
    intros a b Ha Hb.
    apply (StronglySorted_app_1_elem_of _ _ _ _ _ Hsorted Ha Hb).
  - unfold Kratos3Simulation.sample_rate_default. lia.
  - unfold Kratos3Simulation.sample_rate_max, Kratos3Simulation.sample_rate_default. lia.
  - unfold Kratos3Simulation.sample_rate_max. lia.
Qed.

Lemma candidates_are_the_top_witness :
  Z.of_nat (length (Kratos3Simulation.candidates 5 2
                      [sample_scored 6000 25 (-1); sample_scored 100 1 (-1);
                       sample_scored 7000 15 (-1); sample_scored 9000 30 (-1)]))
  <= Kratos3Simulation.alerts_targeted 2
       [sample_scored 6000 25 (-1); sample_scored 100 1 (-1);
        sample_scored 7000 15 (-1); sample_scored 9000 30 (-1)].
Proof.
  destruct (candidates_are_the_top 5 2
              [sample_scored 6000 25 (-1); sample_scored 100 1 (-1);
               sample_scored 7000 15 (-1); sample_scored 9000 30 (-1)])
    as [Hcount _]; [lia | exact Hcount].
Defined.

Example top_two_candidates :
  Kratos3Simulation.candidates 5 2
    [sample_scored 6000 25 (-1); sample_scored 100 1 (-1);
     sample_scored 7000 15 (-1); sample_scored 9000 30 (-1)]
  = [sample_scored 9000 30 (-1); sample_scored 6000 25 (-1)].
Proof. reflexivity. Qed.

(** ** The rule of the script "Kratos 8" against the rule of Kratos28 *)

(** X18. The rule of "Kratos 8" is monotone in both features, and it never
    rates a row lower than [classify_severity] does; the two ratings differ
    exactly for the rows with failed_logins > 20 or bytes_sent > 7000 that
    do not have both failed_logins > 20 and bytes_sent > 5000, which "Kratos
    8" rates HIGH and Kratos28 Medium. *)
Theorem kratos8_rule_compared (r1 r2 : Row Z) :
  bytes_sent r1 <= bytes_sent r2 →
  failed_logins r1 <= failed_logins r2 →
  label_rank (Kratos8.classify r1) <= label_rank (Kratos8.classify r2) ∧
  severity_rank (classify_severity r1) <= label_rank (Kratos8.classify r1) ∧
  (severity_rank (classify_severity r1) ≠ label_rank (Kratos8.classify r1) ↔
     (failed_logins r1 > 20 ∨ bytes_sent r1 > 7000) ∧
     ¬ (failed_logins r1 > 20 ∧ bytes_sent r1 > 5000)) ∧
  (severity_rank (classify_severity r1) ≠ label_rank (Kratos8.classify r1) →
     Kratos8.classify r1 = Kratos8.HIGH ∧ classify_severity r1 = Medium).
Proof.
  intros Hb Hf. unfold Kratos8.classify, classify_severity.
  thresholds; split_and!; try lia; try (split; intros; (lia || congruence));
    intros; (lia || congruence || (split; congruence)).
Qed.

Lemma kratos8_rule_compared_witness :
  label_rank (Kratos8.classify (sample_row 0 21))
    <= label_rank (Kratos8.classify (sample_row 100 30)) ∧
  severity_rank (classify_severity (sample_row 0 21))
    <= label_rank (Kratos8.classify (sample_row 0 21)).
Proof.
  destruct (kratos8_rule_compared (sample_row 0 21) (sample_row 100 30))
    as (Hmono & Hlower & _); [simpl; lia | simpl; lia |].
  by split.
Defined.

(** ** Kratos16: the alert table *)

Lemma set_column_Go {A B C} (f : A -> B -> C) (rows : list A) (values : list B) :
  length values = length rows →
  Kratos16Alerts.set_column f rows values = Go (zip_with f rows values).
Proof. intros Hlen. unfold Kratos16Alerts.set_column. by rewrite decide_True. Qed.

Lemma kratos16_classify_severity_Go (df_alerts : list ScoredRow) :
  Kratos16Alerts.classify_severity df_alerts
  = Go ((fun r : ScoredRow => (r, classify_severity r)) <$> df_alerts).
Proof.
  unfold Kratos16Alerts.classify_severity.
  destruct df_alerts as [|r rest]; [reflexivity|].
  rewrite set_column_Go by (by rewrite length_fmap).
  f_equal. generalize (r :: rest). intros l.
  induction l as [|x l IH]; [done|]. rewrite !fmap_cons. simpl. by rewrite <- IH.
Qed.


Example kratos16_enrich_nothing : Kratos16Alerts.enrich [] = Go [].
Proof. reflexivity. Qed.
